(** * Capability probing of the VGI-RPC implementations

    A shallow embedding of [scripts/test-capabilities.py]: the catalog of
    capabilities, the probe script that runs in a subprocess against a
    conformance worker, [probe_capabilities], which folds the script's output
    into the two capability dictionaries, and [test_all_capabilities], which
    builds the snapshot of every configured language.

    Python dictionaries keep their keys in insertion order and [json.dump]
    writes them in that order, so a dictionary is an association list whose
    assignment keeps the position of a key that is already there.  The
    snapshot that [main] writes with [json.dump] is the value that
    [test_all_capabilities] returns. *)

From Stdlib Require Import ZArith List String Ascii Bool Floats Lia.
From Stdlib Require Import DecimalString.
Import ListNotations.
Open Scope string_scope.
Open Scope list_scope.

Set Implicit Arguments.
Set Warnings "-register-all".

(** ** Documents and dictionaries *)

(** The values that [json.loads] returns and [json.dump] writes.  The probe
    script prints no array, and no array is stored in the snapshot, so the
    documents considered here have none. *)
Inductive json : Type :=
| JNull
| JBool (b : bool)
| JNum (z : Z)
| JStr (s : string)
| JObj (members : list (string * json)).

(** A Python [dict] with string keys. *)
Definition dict : Type := list (string * json).

Definition keys (d : dict) : list string := map fst d.

(** [d.get(k)]: the value stored under [k], if any. *)
Fixpoint dict_get (d : dict) (k : string) : option json :=
  match d with
  | [] => None
  | (k', v) :: d' => if String.eqb k' k then Some v else dict_get d' k
  end.

(** [d[k] = v]: overwrite in place, or append a new key. *)
Fixpoint dict_set (d : dict) (k : string) (v : json) : dict :=
  match d with
  | [] => [(k, v)]
  | (k', v') :: d' =>
      if String.eqb k' k then (k', v) :: d' else (k', v') :: dict_set d' k v
  end.

(** [d.update(other)] for a mapping [other]. *)
Definition dict_update (d other : dict) : dict :=
  fold_left (fun acc kv => dict_set acc (fst kv) (snd kv)) other d.

(** [{k: v for k in ks}]. *)
Definition dict_comprehension (ks : list string) (v : json) : dict :=
  fold_left (fun acc k => dict_set acc k v) ks [].

(** [None] or a value, as a document. *)
Definition json_of_option (o : option string) : json :=
  match o with
  | Some s => JStr s
  | None => JNull
  end.

(** ** Exceptions and results *)

(** An exception: [type(e).__name__] and [str(e)].  Only subclasses of
    [Exception] are considered. *)
Record exn : Type := Exn { exn_type : string; exn_str : string }.

Definition TimeoutExpired : string := "TimeoutExpired".
Definition FileNotFoundError : string := "FileNotFoundError".
Definition JSONDecodeError : string := "JSONDecodeError".
Definition AttributeError : string := "AttributeError".
Definition TypeError : string := "TypeError".
Definition ValueError : string := "ValueError".
Definition OverflowError : string := "OverflowError".

(** [isinstance(e, cls)] for the classes named in the [except] clauses. *)
Definition is_a (e : exn) (cls : string) : bool := String.eqb (exn_type e) cls.

(** A Python call either returns or raises. *)
Inductive result (A : Type) : Type :=
| Ok (a : A)
| Raise (e : exn).
Arguments Raise {A} e.

(** What [subprocess.run(..., capture_output=True, text=True)] returns. *)
Record completed (A : Type) : Type :=
  CompletedProcess { returncode : Z; stdout : A }.

(** ** Configuration *)

Record lang_config : Type := LangConfig {
  repo : string;
  docs : option string;
  package_url : option string;
  build_cmd : option (list string);
  worker_cmd : option (list string);
  version_cmd : option (list string);
  known_transports : dict
}.

Definition transports (pipe subprocess unix_socket shared_memory http worker_pool : bool)
  : dict :=
  [("pipe", JBool pipe); ("subprocess", JBool subprocess);
   ("unix_socket", JBool unix_socket); ("shared_memory", JBool shared_memory);
   ("http", JBool http); ("worker_pool", JBool worker_pool)].

Definition LANGUAGES : list (string * lang_config) :=
  [("python",
    {| repo := "https://github.com/Query-farm/vgi-rpc-python";
       docs := Some "https://vgi-rpc-python.query.farm";
       package_url := Some "https://pypi.org/project/vgi-rpc/";
       build_cmd := Some ["uv"; "sync"; "--all-extras"];
       worker_cmd := Some ["uv"; "run"; "python"; "-m"; "vgi_rpc.conformance.worker"];
       version_cmd :=
         Some ["uv"; "run"; "python"; "-c";
               "import vgi_rpc; print(vgi_rpc.__version__)"];
       known_transports := transports true true true true true true |});
   ("typescript",
    {| repo := "https://github.com/Query-farm/vgi-rpc-ts";
       docs := None;
       package_url := None;
       build_cmd := Some ["bun"; "install"];
       worker_cmd := Some ["bun"; "run"; "src/conformance/worker.ts"];
       version_cmd :=
         Some ["bun"; "run"; "-e";
               "const pkg = require('./package.json'); console.log(pkg.version)"];
       known_transports := transports false true false false false false |});
   ("go",
    {| repo := "https://github.com/Query-farm/vgi-rpc-go";
       docs := None;
       package_url := None;
       build_cmd := Some ["go"; "build"; "./..."];
       worker_cmd := Some ["go"; "run"; "./cmd/conformance-worker"];
       version_cmd := None;
       known_transports := transports false true false false false false |});
   ("cpp",
    {| repo := "https://github.com/Query-farm/vgi-rpc-cpp";
       docs := None;
       package_url := None;
       build_cmd := None;
       worker_cmd := None;
       version_cmd := None;
       known_transports := transports false false false false false false |})].

(** Capabilities to probe via conformance testing. *)
Definition PATTERNS : list string :=
  ["unary"; "unary_void"; "producer"; "producer_with_header";
   "exchange"; "exchange_with_header"].

Definition FEATURES : list string :=
  ["introspection"; "client_logging"; "error_propagation"; "complex_types";
   "optional_types"; "dataclass_types"; "annotated_types"; "authentication";
   "external_storage"; "opentelemetry"].

(** [not cmd] for a command that is [None] or a list. *)
Definition falsy (cmd : option (list string)) : bool :=
  match cmd with
  | None | Some [] => true
  | Some (_ :: _) => false
  end.

(** ** The conformance worker, as the probe script meets it *)

(** How the lazy sequence returned by a streaming call stops. *)
Inductive stream_end : Type :=
| EndOfStream
| StreamRaises (e : exn)
| StreamHangs.

(** The Python values a call on the proxy may return. *)
Inductive value : Type :=
| VNone
| VBool (b : bool)
| VInt (z : Z)
| VFloat (f : float)
| VStr (s : string)
| VList (items : list value)
| VDescription (methods : list string)
| VStream (batches : list value) (stop : stream_end).

(** The calls the probe script issues. *)
Inductive request : Type :=
| Add (a b : float)
| VoidMethod
| Introspect
| RaiseError
| EchoList (values : list value)
| EchoOptional (v : value)
| CountStream (n : Z).

(** A step that may suspend: it returns, raises, or does not come back
    before the subprocess is stopped by its 60 second timeout. *)
Inductive outcome (A : Type) : Type :=
| Returns (a : A)
| Raises (e : exn)
| Hangs.
Arguments Raises {A} e.
Arguments Hangs {A}.

(** The worker answers a request knowing the requests it has served. *)
Definition worker_fn : Type := list request -> request -> outcome value.

(** Everything outside the script that decides how one run of it goes. *)
Record session : Type := Session {
  cwd_exists : bool;
  import_vgi_rpc : outcome unit;
  connect_enter : outcome unit;
  import_introspect : outcome unit;
  worker : worker_fn;
  connect_exit : outcome unit
}.

(** ** Programs with state, exceptions and suspension *)

(** How a piece of Python code ends, in the state it leaves behind: it
    finishes with a value, raises, or never comes back. *)
Inductive run (S A : Type) : Type :=
| Done (a : A) (s : S)
| Fault (e : exn) (s : S)
| Stuck (s : S).
Arguments Done {S A} a s.
Arguments Fault {S A} e s.
Arguments Stuck {S A} s.

Definition final_state {S A} (r : run S A) : S :=
  match r with
  | Done _ s | Fault _ s | Stuck s => s
  end.

Definition prog (S A : Type) : Type := S -> run S A.

Definition ret {S A} (a : A) : prog S A := fun s => Done a s.

Definition bind {S A B} (m : prog S A) (k : A -> prog S B) : prog S B :=
  fun s =>
    match m s with
    | Done a s' => k a s'
    | Fault e s' => Fault e s'
    | Stuck s' => Stuck s'
    end.

Declare Scope prog_scope.
Delimit Scope prog_scope with prog.
Notation "x <- m ;; k" := (bind m (fun x => k))
  (at level 61, m at next level, right associativity) : prog_scope.
Notation "m ;; k" := (bind m (fun _ => k))
  (at level 61, right associativity) : prog_scope.
Open Scope prog_scope.

(** [raise e]. *)
Definition throw {S A} (e : exn) : prog S A := fun s => Fault e s.

(** A pure computation that may raise. *)
Definition lift {S A} (r : result A) : prog S A :=
  fun s =>
    match r with
    | Ok a => Done a s
    | Raise e => Fault e s
    end.

(** A step decided by the outside that leaves the state alone. *)
Definition effect {S A} (o : outcome A) : prog S A :=
  fun s =>
    match o with
    | Returns a => Done a s
    | Raises e => Fault e s
    | Hangs => Stuck s
    end.

(** Reading the state. *)
Definition observe {S A} (f : S -> A) : prog S A := fun s => Done (f s) s.

(** [try: body except Exception as e: handler(e)].  What the body changed
    before it raised stays changed. *)
Definition try_except {S A} (body : prog S A) (handler : exn -> prog S A) : prog S A :=
  fun s =>
    match body s with
    | Done a s' => Done a s'
    | Fault e s' => handler e s'
    | Stuck s' => Stuck s'
    end.

(** [try: body except (cls1, cls2, ...): handler]: any other exception
    goes on to the caller. *)
Definition try_except_of {S A} (classes : list string) (body : prog S A)
    (handler : prog S A) : prog S A :=
  try_except body
    (fun e => if existsb (is_a e) classes then handler else throw e).

(** [subprocess.run(..., timeout=t)]: a child that does not finish in time
    is stopped and [TimeoutExpired] is raised. *)
Definition with_timeout {S A} (child : prog S A) : prog S A :=
  fun s =>
    match child s with
    | Stuck s' => Fault (Exn TimeoutExpired "timed out") s'
    | r => r
    end.

(** ** The state of the probe script *)

(** One call on the proxy: the probe that issued it, and what came back. *)
Record call : Type := Call {
  call_probe : string;
  call_request : request;
  call_outcome : outcome value
}.

(** The calls issued so far, and the two dictionaries of [results]. *)
Record sstate : Type := SState {
  calls : list call;
  results_patterns : dict;
  results_features : dict
}.

Definition script (A : Type) : Type := prog sstate A.

(** [results["patterns"][k] = b]. *)
Definition set_pattern (k : string) (b : bool) : script unit :=
  fun s => Done tt (SState (calls s) (dict_set (results_patterns s) k (JBool b))
                           (results_features s)).

(** [results["features"][k] = b]. *)
Definition set_feature (k : string) (b : bool) : script unit :=
  fun s => Done tt (SState (calls s) (results_patterns s)
                           (dict_set (results_features s) k (JBool b))).

(** ** The checks of the probe script *)

(** [float(z)]: nearest double, ties to even. *)
Definition float_of_Z (z : Z) : result float :=
  let f := SF2Prim (binary_normalize prec emax z 0 false) in
  if PrimFloat.is_infinity f
  then Raise (Exn OverflowError "int too large to convert to float")
  else Ok f.

(** The double that Python reads for the literal [0.001]. *)
Definition tolerance : float := 0x1.0624dd2f1a9fcp-10%float.

(** [abs(r - 3.0) < 0.001]. *)
Definition close_to_three (r : value) : result bool :=
  let test (f : float) := PrimFloat.ltb (PrimFloat.abs (PrimFloat.sub f 3%float)) tolerance in
  match r with
  | VFloat f => Ok (test f)
  | VInt z =>
      match float_of_Z z with
      | Ok f => Ok (test f)
      | Raise e => Raise e
      end
  | VBool b =>
      match float_of_Z (Z.b2z b) with
      | Ok f => Ok (test f)
      | Raise e => Raise e
      end
  | _ => Raise (Exn TypeError "unsupported operand type(s) for -")
  end.

(** [v == n] for an integer literal [n] that a double holds exactly. *)
Definition eq_int (v : value) (n : Z) : bool :=
  match v with
  | VInt z => Z.eqb z n
  | VBool b => Z.eqb (Z.b2z b) n
  | VFloat f =>
      match float_of_Z n with
      | Ok g => PrimFloat.eqb f g
      | Raise _ => false
      end
  | _ => false
  end.

Fixpoint all_eq_int (items : list value) (ns : list Z) : bool :=
  match items, ns with
  | [], [] => true
  | v :: items', n :: ns' => eq_int v n && all_eq_int items' ns'
  | _, _ => false
  end.

(** [r == [n1, n2, ...]]. *)
Definition eq_int_list (r : value) (ns : list Z) : bool :=
  match r with
  | VList items => all_eq_int items ns
  | _ => false
  end.

(** [r is None]. *)
Definition is_none (r : value) : bool :=
  match r with
  | VNone => true
  | _ => false
  end.

(** [len(desc.methods) > 0]. *)
Definition has_methods (desc : value) : result bool :=
  match desc with
  | VDescription methods => Ok (Nat.ltb 0 (List.length methods))
  | _ => Raise (Exn AttributeError "object has no attribute 'methods'")
  end.

(** [iter(v)]: the items a [for] loop over [v] sees, and how they stop. *)
Definition iterate (v : value) : result (list value * stream_end) :=
  match v with
  | VStream batches stop => Ok (batches, stop)
  | VList items => Ok (items, EndOfStream)
  | VStr s =>
      Ok (map (fun c => VStr (String c EmptyString)) (list_ascii_of_string s), EndOfStream)
  | _ => Raise (Exn TypeError "object is not iterable")
  end.

(** [for batch in it: count += 1]. *)
Definition count_batches (it : list value * stream_end) (count : Z) : script Z :=
  let count' := fold_left (fun c _ => (c + 1)%Z) (fst it) count in
  match snd it with
  | EndOfStream => ret count'
  | StreamRaises e => throw e
  | StreamHangs => effect Hangs
  end.

Fixpoint contains_from (needle hay : string) : bool :=
  String.prefix needle hay ||
  match hay with
  | EmptyString => false
  | String _ hay' => contains_from needle hay'
  end.

(** [needle in hay]. *)
Definition contains (needle hay : string) : bool := contains_from needle hay.

(** The state once a call and its outcome are on record. *)
Definition logged (probe : string) (req : request) (o : outcome value) (s : sstate)
  : sstate :=
  SState (calls s ++ [Call probe req o]) (results_patterns s) (results_features s).

(** ** The probe script *)

Section ProbeScript.

Variable env : session.

(** What the worker answers to [req] after the calls issued so far. *)
Definition answer (s : sstate) (req : request) : outcome value :=
  worker env (map call_request (calls s)) req.

(** A call on the proxy, issued by probe [probe]. *)
Definition proxy_call (probe : string) (req : request) : script value :=
  fun s =>
    let o := answer s req in
    effect o (logged probe req o s).

(** Test unary *)
Definition probe_unary : script unit :=
  try_except
    (r <- proxy_call "unary" (Add 1%float 2%float) ;;
     b <- lift (close_to_three r) ;;
     set_pattern "unary" b)
    (fun _ => set_pattern "unary" false).

(** Test unary_void *)
Definition probe_unary_void : script unit :=
  try_except
    (proxy_call "unary_void" VoidMethod ;;
     set_pattern "unary_void" true)
    (fun _ => set_pattern "unary_void" false).

(** Test introspection *)
Definition probe_introspection : script unit :=
  try_except
    (effect (import_introspect env) ;;
     desc <- proxy_call "introspection" Introspect ;;
     b <- lift (has_methods desc) ;;
     set_feature "introspection" b)
    (fun _ => set_feature "introspection" false).

(** Test error propagation *)
Definition probe_error_propagation : script unit :=
  try_except
    (proxy_call "error_propagation" RaiseError ;;
     set_feature "error_propagation" false)
    (fun e => set_feature "error_propagation" (contains "RpcError" (exn_type e))).

(** Test complex types *)
Definition probe_complex_types : script unit :=
  try_except
    (r <- proxy_call "complex_types" (EchoList [VInt 1; VInt 2; VInt 3]) ;;
     set_feature "complex_types" (eq_int_list r [1; 2; 3]%Z))
    (fun _ => set_feature "complex_types" false).

(** Test optional types *)
Definition probe_optional_types : script unit :=
  try_except
    (r <- proxy_call "optional_types" (EchoOptional VNone) ;;
     set_feature "optional_types" (is_none r))
    (fun _ => set_feature "optional_types" false).

(** Test producer *)
Definition probe_producer : script unit :=
  try_except
    (stream <- proxy_call "producer" (CountStream 3) ;;
     it <- lift (iterate stream) ;;
     count <- count_batches it 0%Z ;;
     set_pattern "producer" (Z.eqb count 3))
    (fun _ => set_pattern "producer" false).

(** Test exchange *)
Definition probe_exchange : script unit :=
  try_except
    (set_pattern "exchange" true)
    (fun _ => set_pattern "exchange" false).

(** The body of the [with] statement. *)
Definition probes : script unit :=
  probe_unary ;;
  probe_unary_void ;;
  probe_introspection ;;
  probe_error_propagation ;;
  probe_complex_types ;;
  probe_optional_types ;;
  probe_producer ;;
  probe_exchange.

(** [with connect(ConformanceService, worker_cmd) as proxy: body].  The
    context manager is left when the body ends, also by an exception. *)
Definition with_connect (body : script unit) : script unit :=
  fun s =>
    match effect (connect_enter env) s with
    | Done _ s1 =>
        match body s1 with
        | Done _ s2 => effect (connect_exit env) s2
        | Fault e s2 =>
            match effect (connect_exit env) s2 with
            | Done _ s3 => Fault e s3
            | other => other
            end
        | Stuck s2 => Stuck s2
        end
    | other => other
    end.

(** [results = {"patterns": {}, "features": {}}] and no call issued. *)
Definition initial : sstate := SState [] [] [].

(** The statements under the outer [try]. *)
Definition script_main : script unit :=
  effect (import_vgi_rpc env) ;;
  with_connect probes.

(** What the subprocess writes on its standard output, read as a document. *)
Inductive printed : Type :=
| Prints (doc : json)
| NeverPrints.

Definition results_doc (s : sstate) : json :=
  JObj [("patterns", JObj (results_patterns s));
        ("features", JObj (results_features s))].

Definition error_doc (e : exn) : json :=
  JObj [("error", JStr (exn_str e)); ("patterns", JObj []); ("features", JObj [])].

Definition probe_script : printed :=
  match script_main initial with
  | Done _ s => Prints (results_doc s)
  | Fault e _ => Prints (error_doc e)
  | Stuck _ => NeverPrints
  end.

(** The calls the script issued on the proxy, in order. *)
Definition script_calls : list call := calls (final_state (script_main initial)).

(** The child process [sys.executable -c probe_script *worker_cmd] started
    in [repo_dir].  Its captured output is kept as the document it spells;
    [None] stands for text that [json.loads] rejects. *)
Definition python_c_probe_script : outcome (completed (option json)) :=
  if cwd_exists env then
    match probe_script with
    | Prints doc => Returns (CompletedProcess 0%Z (Some doc))
    | NeverPrints => Hangs
    end
  else Raises (Exn FileNotFoundError "No such file or directory").

End ProbeScript.


(** ** [probe_capabilities] *)

(** [json.loads(text)] on captured output. *)
Definition json_loads (text : option json) : result json :=
  match text with
  | Some data => Ok data
  | None => Raise (Exn JSONDecodeError "Expecting value")
  end.

(** [data.get(k, default)]. *)
Definition json_get (data : json) (k : string) (default : json) : result json :=
  match data with
  | JObj members =>
      Ok (match dict_get members k with
          | Some v => v
          | None => default
          end)
  | _ => Raise (Exn AttributeError "object has no attribute 'get'")
  end.

(** [d.update(other)] for a document [other]. *)
Definition update (d : dict) (other : json) : result dict :=
  match other with
  | JObj members => Ok (dict_update d members)
  | JStr EmptyString => Ok d
  | JStr _ =>
      Raise (Exn ValueError
               "dictionary update sequence element #0 has length 1; 2 is required")
  | JNull | JBool _ | JNum _ => Raise (Exn TypeError "object is not iterable")
  end.

Section ProbeCapabilities.

(** The machine, and the child process that runs the probe script on a
    worker command in a directory. *)
Variable M : Type.
Variable python_c : list string -> string -> prog M (completed (option json)).

(** Probe a worker's capabilities; returns [(patterns, features)].  The
    exceptions the [except] clause names can only be raised before either
    dictionary is updated, so its handler returns them as first built. *)
Definition probe_capabilities (worker_cmd : option (list string)) (repo_dir : string)
  : prog M (dict * dict) :=
  let patterns := dict_comprehension PATTERNS (JBool false) in
  let features := dict_comprehension FEATURES (JBool false) in
  match worker_cmd with
  | None | Some [] => ret (patterns, features)
  | Some cmd =>
      try_except_of [TimeoutExpired; JSONDecodeError; FileNotFoundError]
        (result <- with_timeout (python_c cmd repo_dir) ;;
         if Z.eqb (returncode result) 0 then
           data <- lift (json_loads (stdout result)) ;;
           p <- lift (json_get data "patterns" (JObj [])) ;;
           patterns' <- lift (update patterns p) ;;
           f <- lift (json_get data "features" (JObj [])) ;;
           features' <- lift (update features f) ;;
           ret (patterns', features')
         else ret (patterns, features))
        (ret (patterns, features))
  end.

End ProbeCapabilities.

(** The probe of one worker: the child process is a run of [probe_script]
    in the session [env], and nothing else of the machine matters. *)
Definition probe (worker_cmd : option (list string)) (repo_dir : string)
    (env : session) : run unit (dict * dict) :=
  probe_capabilities (fun _ _ => effect (python_c_probe_script env))
    worker_cmd repo_dir tt.

(** The calls issued on the proxy during that probe. *)
Definition probe_calls (worker_cmd : option (list string)) (env : session)
  : list call :=
  if falsy worker_cmd || negb (cwd_exists env) then [] else script_calls env.

(** ** Cloning, building and the snapshot *)

(** [c.isspace()] for an ASCII character. *)
Definition isspace (c : ascii) : bool :=
  let n := nat_of_ascii c in
  (Nat.leb 9 n && Nat.leb n 13) || (Nat.leb 28 n && Nat.leb n 32).

Fixpoint lstrip (l : list ascii) : list ascii :=
  match l with
  | c :: l' => if isspace c then lstrip l' else l
  | [] => []
  end.

(** [s.strip()]. *)
Definition strip (s : string) : string :=
  string_of_list_ascii (rev (lstrip (rev (lstrip (list_ascii_of_string s))))).

Section Orchestration.

(** The machine the script runs on: its state, [Path.exists], the child
    processes started for git and for the version and build commands (with
    the working directory, when one is given), what a run of the probe
    script meets there, and the clock. *)
Variable OS : Type.
Variable path_exists : OS -> string -> bool.
Variable spawn : list string -> option string -> prog OS (completed string).
Variable probe_session : list string -> string -> OS -> session * OS.
Variable utcnow_isoformat : OS -> string.

(** Clone or pull a repo.  Returns [true] on success. *)
Definition clone_or_pull (repo_url target_dir : string) : prog OS bool :=
  exists_ <- observe (fun os => path_exists os target_dir) ;;
  if exists_ : bool then
    result <- spawn ["git"; "pull"; "--ff-only"] (Some target_dir) ;;
    ret (Z.eqb (returncode result) 0)
  else
    result <- spawn ["git"; "clone"; "--depth=1"; repo_url; target_dir] None ;;
    ret (Z.eqb (returncode result) 0).

(** Get version string for a language implementation. *)
Definition get_version (lang_config : lang_config) (repo_dir : string)
  : prog OS (option string) :=
  match version_cmd lang_config with
  | None | Some [] => ret None
  | Some cmd =>
      try_except_of [TimeoutExpired; FileNotFoundError]
        (result <- with_timeout (spawn cmd (Some repo_dir)) ;;
         if Z.eqb (returncode result) 0
         then ret (Some (strip (stdout result)))
         else ret None)
        (ret None)
  end.

(** Build the conformance worker.  Returns [true] on success. *)
Definition build_worker (lang_config : lang_config) (repo_dir : string)
  : prog OS bool :=
  match build_cmd lang_config with
  | None | Some [] => ret false
  | Some cmd =>
      try_except_of [TimeoutExpired; FileNotFoundError]
        (result <- with_timeout (spawn cmd (Some repo_dir)) ;;
         ret (Z.eqb (returncode result) 0))
        (ret false)
  end.

(** The probe subprocess on this machine. *)
Definition python_c_on_os (worker_cmd : list string) (repo_dir : string)
  : prog OS (completed (option json)) :=
  fun os =>
    let (env, os') := probe_session worker_cmd repo_dir os in
    effect (python_c_probe_script env) os'.

(** The body of the loop over [LANGUAGES]; [languages] is
    [result["languages"]]. *)
Definition test_language (repos_dir : string) (entry : string * lang_config)
    (languages : dict) : prog OS dict :=
  let (lang_name, config) := entry in
  let repo_dir := (repos_dir ++ "/vgi-rpc-" ++ lang_name)%string in
  cloned <- clone_or_pull (repo config) repo_dir ;;
  exists_ <- observe (fun os => path_exists os repo_dir) ;;
  if negb cloned && negb exists_ then
    ret (dict_set languages lang_name
           (JObj [("version", JNull);
                  ("repo", JStr (repo config));
                  ("docs", json_of_option (docs config));
                  ("package_url", json_of_option (package_url config));
                  ("transports", JObj (known_transports config));
                  ("patterns", JObj (dict_comprehension PATTERNS (JBool false)));
                  ("features", JObj (dict_comprehension FEATURES (JBool false)))]))
  else
    version <- get_version config repo_dir ;;
    worker_cmd <-
      (if negb (falsy (build_cmd config)) then
         built <- build_worker config repo_dir ;;
         ret (if built : bool then worker_cmd config else None)
       else ret (worker_cmd config)) ;;
    pf <- probe_capabilities python_c_on_os worker_cmd repo_dir ;;
    ret (dict_set languages lang_name
           (JObj [("version", json_of_option version);
                  ("repo", JStr (repo config));
                  ("docs", json_of_option (docs config));
                  ("package_url", json_of_option (package_url config));
                  ("transports", JObj (known_transports config));
                  ("patterns", JObj (fst pf));
                  ("features", JObj (snd pf))])).

(** [for x in xs: acc = body(x, acc)]. *)
Fixpoint for_each {A} (xs : list A) (body : A -> dict -> prog OS dict) (acc : dict)
  : prog OS dict :=
  match xs with
  | [] => ret acc
  | x :: xs' => acc' <- body x acc ;; for_each xs' body acc'
  end.

(** Test the given language implementations and return the snapshot. *)
Definition test_capabilities_of (languages : list (string * lang_config))
    (repos_dir : string) : prog OS json :=
  generated_at <- observe utcnow_isoformat ;;
  langs <- for_each languages (test_language repos_dir) [] ;;
  ret (JObj [("generated_at", JStr generated_at); ("languages", JObj langs)]).

(** Test all language implementations and return capabilities dict. *)
Definition test_all_capabilities (repos_dir : string) : prog OS json :=
  test_capabilities_of LANGUAGES repos_dir.

(** Every child process comes back, or fails the way the code expects: git
    finishes, with any exit status, and the other commands finish, hang, or
    raise [TimeoutExpired] or [FileNotFoundError]. *)
Definition children_behave : Prop :=
  (forall args cwd os, exists r os', spawn ("git" :: args) cwd os = Done r os') /\
  (forall cmd cwd os e os',
      spawn cmd cwd os = Fault e os' ->
      is_a e TimeoutExpired || is_a e FileNotFoundError = true).

(** The executable cannot be started: every command on it raises
    [FileNotFoundError]. *)
Definition not_installed (exe : string) : Prop :=
  forall args cwd os,
    exists msg os', spawn (exe :: args) cwd os = Fault (Exn FileNotFoundError msg) os'.

End Orchestration.

(** ** Vocabulary of the statements *)

(** The record with every key of a catalog at [False]. *)
Definition zero (catalog : list string) : dict :=
  map (fun k => (k, JBool false)) catalog.

(** The verdict each probe draws from the outcome of its own call:
    [Some b] when it records [b], [None] when it never gets to record. *)
Definition judge_unary (o : outcome value) : option bool :=
  match o with
  | Returns r =>
      Some (match close_to_three r with
            | Ok b => b
            | Raise _ => false
            end)
  | Raises _ => Some false
  | Hangs => None
  end.

Definition judge_unary_void (o : outcome value) : option bool :=
  match o with
  | Returns _ => Some true
  | Raises _ => Some false
  | Hangs => None
  end.

Definition judge_introspection (o : outcome value) : option bool :=
  match o with
  | Returns desc =>
      Some (match has_methods desc with
            | Ok b => b
            | Raise _ => false
            end)
  | Raises _ => Some false
  | Hangs => None
  end.

Definition judge_error_propagation (o : outcome value) : option bool :=
  match o with
  | Returns _ => Some false
  | Raises e => Some (contains "RpcError" (exn_type e))
  | Hangs => None
  end.

Definition judge_complex_types (o : outcome value) : option bool :=
  match o with
  | Returns r => Some (eq_int_list r [1; 2; 3]%Z)
  | Raises _ => Some false
  | Hangs => None
  end.

Definition judge_optional_types (o : outcome value) : option bool :=
  match o with
  | Returns r => Some (is_none r)
  | Raises _ => Some false
  | Hangs => None
  end.

Definition judge_producer (o : outcome value) : option bool :=
  match o with
  | Returns stream =>
      match iterate stream with
      | Ok (batches, EndOfStream) => Some (Nat.eqb (List.length batches) 3)
      | Ok (_, StreamRaises _) => Some false
      | Ok (_, StreamHangs) => None
      | Raise _ => Some false
      end
  | Raises _ => Some false
  | Hangs => None
  end.

(** The verdict of the probe named [probe]. *)
Definition judge (probe : string) (o : outcome value) : option bool :=
  if String.eqb probe "unary" then judge_unary o
  else if String.eqb probe "unary_void" then judge_unary_void o
  else if String.eqb probe "introspection" then judge_introspection o
  else if String.eqb probe "error_propagation" then judge_error_propagation o
  else if String.eqb probe "complex_types" then judge_complex_types o
  else if String.eqb probe "optional_types" then judge_optional_types o
  else if String.eqb probe "producer" then judge_producer o
  else None.

(** The introspection probe: its call, if the import let it issue one, and
    what it records. *)
Definition introspection_went (env : session) (issued : list call) (b : bool) : Prop :=
  (import_introspect env = Returns tt /\
   exists o, issued = [Call "introspection" Introspect o] /\
             judge_introspection o = Some b) \/
  (exists e, import_introspect env = Raises e /\ issued = [] /\ b = false).

(** The states in which the eight probes of the script leave it when all of
    them get to record a value. *)
Inductive probes_completed (env : session) : sstate -> Prop :=
| ProbesCompleted (o1 o2 o4 o5 o6 o7 : outcome value) (issued3 : list call)
    (b1 b2 b3 b4 b5 b6 b7 : bool) :
    judge_unary o1 = Some b1 ->
    judge_unary_void o2 = Some b2 ->
    introspection_went env issued3 b3 ->
    judge_error_propagation o4 = Some b4 ->
    judge_complex_types o5 = Some b5 ->
    judge_optional_types o6 = Some b6 ->
    judge_producer o7 = Some b7 ->
    probes_completed env
      (SState
         ([Call "unary" (Add 1%float 2%float) o1;
           Call "unary_void" VoidMethod o2]
          ++ issued3
          ++ [Call "error_propagation" RaiseError o4;
              Call "complex_types" (EchoList [VInt 1; VInt 2; VInt 3]) o5;
              Call "optional_types" (EchoOptional VNone) o6;
              Call "producer" (CountStream 3) o7])
         [("unary", JBool b1); ("unary_void", JBool b2);
          ("producer", JBool b7); ("exchange", JBool true)]
         [("introspection", JBool b3); ("error_propagation", JBool b4);
          ("complex_types", JBool b5); ("optional_types", JBool b6)]).

(** The session is established: there is a worker command, the working
    directory exists, the imports succeed and [connect] hands out a proxy. *)
Definition established (worker_cmd : option (list string)) (env : session) : bool :=
  negb (falsy worker_cmd) && cwd_exists env &&
  match import_vgi_rpc env, connect_enter env with
  | Returns _, Returns _ => true
  | _, _ => false
  end.

(** The script runs to its last line and prints [results]. *)
Definition prints_results (env : session) : bool :=
  match script_main env initial with
  | Done _ _ => true
  | _ => false
  end.

(** The value recorded under a key of either dictionary. *)
Definition recorded (pf : dict * dict) (k : string) : option json :=
  match dict_get (fst pf) k with
  | Some v => Some v
  | None => dict_get (snd pf) k
  end.

(** The calls issued by the probe named [probe]. *)
Definition calls_of (probe : string) (cs : list call) : list call :=
  filter (fun c => String.eqb (call_probe c) probe) cs.

(** A worker whose answers do not depend on what it served before. *)
Definition stateless (w : worker_fn) : Prop :=
  forall h h' req, w h req = w h' req.

(** The same session, met by a worker that has already served [served]. *)
Definition resumed (env : session) (served : list request) : session :=
  Session (cwd_exists env) (import_vgi_rpc env) (connect_enter env)
          (import_introspect env)
          (fun h req => worker env (served ++ h) req)
          (connect_exit env).

(** Sessions that differ only by workers that answer alike. *)
Definition same_answers (env env' : session) : Prop :=
  cwd_exists env' = cwd_exists env /\
  import_vgi_rpc env' = import_vgi_rpc env /\
  connect_enter env' = connect_enter env /\
  import_introspect env' = import_introspect env /\
  connect_exit env' = connect_exit env /\
  forall h req, worker env' h req = worker env h req.

(** The record written for a language, whatever happened. *)
Definition capability_record (config : lang_config) (version : json) (p f : dict)
  : json :=
  JObj [("version", version);
        ("repo", JStr (repo config));
        ("docs", json_of_option (docs config));
        ("package_url", json_of_option (package_url config));
        ("transports", JObj (known_transports config));
        ("patterns", JObj p);
        ("features", JObj f)].

(** What every turn of the loop that ends has written. *)
Definition written (x : string * lang_config) (v : json) : Prop :=
  exists version p f,
    v = capability_record (snd x) version p f /\
    keys p = PATTERNS /\ keys f = FEATURES.

(** The version and build commands of a configuration run the executable
    [exe]. *)
Definition runs_only (config : lang_config) (exe : string) : Prop :=
  (version_cmd config = None \/ exists args, version_cmd config = Some (exe :: args)) /\
  exists args, build_cmd config = Some (exe :: args).

(** ** Sample sessions *)

(** A worker that implements the conformance service. *)
Definition conforming_worker : worker_fn :=
  fun _ req =>
    match req with
    | Add a b => Returns (VFloat (PrimFloat.add a b))
    | VoidMethod => Returns VNone
    | Introspect => Returns (VDescription ["add"; "void_method"; "count_stream"])
    | RaiseError => Raises (Exn "RpcError" "intentional failure")
    | EchoList values => Returns (VList values)
    | EchoOptional v => Returns v
    | CountStream n =>
        Returns (VStream (map VInt (map Z.of_nat (seq 0 (Z.to_nat n)))) EndOfStream)
    end.

(** The same worker, except that its stream never yields. *)
Definition stalling_worker : worker_fn :=
  fun h req =>
    match req with
    | CountStream _ => Hangs
    | _ => conforming_worker h req
    end.

(** A worker that refuses every call. *)
Definition refusing_worker : worker_fn :=
  fun _ _ => Raises (Exn "NotImplementedError" "not implemented").

(** A session in which everything around the worker goes well. *)
Definition session_with (w : worker_fn) : session :=
  Session true (Returns tt) (Returns tt) (Returns tt) w (Returns tt).

(** A session whose worker cannot be launched. *)
Definition session_without_worker : session :=
  Session true (Returns tt)
          (Raises (Exn FileNotFoundError "No such file or directory: 'worker'"))
          (Returns tt) conforming_worker (Returns tt).

Definition sample_cmd : option (list string) := Some ["worker"].

(** A machine that has git and no tool of any language: cloning succeeds,
    every other command fails to start. *)
Definition spawn_only_git : list string -> option string -> prog unit (completed string) :=
  fun cmd _ os =>
    match cmd with
    | "git" :: _ => Done (CompletedProcess 0%Z "") os
    | _ => Fault (Exn FileNotFoundError "No such file or directory") os
    end.

(** A machine that is offline and has no checkout: git exits with an error. *)
Definition spawn_offline : list string -> option string -> prog unit (completed string) :=
  fun cmd _ os =>
    match cmd with
    | "git" :: _ => Done (CompletedProcess 128%Z "") os
    | _ => Fault (Exn FileNotFoundError "No such file or directory") os
    end.

(** A machine on which every command succeeds and prints a version line. *)
Definition spawn_all_fine : list string -> option string -> prog unit (completed string) :=
  fun _ _ os =>
    Done (CompletedProcess 0%Z ("0.4.2" ++ String (ascii_of_nat 10) EmptyString)%string) os.

Definition nothing_exists : unit -> string -> bool := fun _ _ => false.

Definition conforming_sessions : list string -> string -> unit -> session * unit :=
  fun _ _ os => (session_with conforming_worker, os).

Definition fixed_clock : unit -> string := fun _ => "2026-01-01T00:00:00+00:00".

(** The configuration of a language, by name. *)
Definition config_of (lang : string) : lang_config :=
  hd (LangConfig "" None None None None None [])
     (map snd (filter (fun x => String.eqb (fst x) lang) LANGUAGES)).

Definition go_config : lang_config := Eval cbv in config_of "go".

(** The snapshots taken on the sample machines. *)
Definition snapshot_of (r : run unit json) : json :=
  match r with
  | Done snap _ => snap
  | _ => JNull
  end.

Definition snapshot_all_fine : json :=
  Eval vm_compute in
    snapshot_of (test_all_capabilities nothing_exists spawn_all_fine
                   conforming_sessions fixed_clock "repos" tt).

Definition snapshot_only_git : json :=
  Eval vm_compute in
    snapshot_of (test_all_capabilities nothing_exists spawn_only_git
                   conforming_sessions fixed_clock "repos" tt).

(** ** The summary printed by [main] *)

(** [bool(v)]. *)
Definition truthy (v : json) : bool :=
  match v with
  | JNull => false
  | JBool b => b
  | JNum z => negb (Z.eqb z 0)
  | JStr s => negb (String.eqb s "")
  | JObj [] => false
  | JObj (_ :: _) => true
  end.

Definition KeyError : string := "KeyError".

(** [j[k]]. *)
Definition subscript (j : json) (k : string) : result json :=
  match j with
  | JObj members =>
      match dict_get members k with
      | Some v => Ok v
      | None => Raise (Exn KeyError k)
      end
  | _ => Raise (Exn TypeError "object is not subscriptable")
  end.

(** [j.items()]. *)
Definition items (j : json) : result dict :=
  match j with
  | JObj members => Ok members
  | _ => Raise (Exn AttributeError "object has no attribute 'items'")
  end.

(** [sum(1 for v in j.values() if v)]. *)
Definition count_true (j : json) : result nat :=
  match j with
  | JObj members =>
      Ok (List.length (filter (fun kv => truthy (snd kv)) members))
  | _ => Raise (Exn AttributeError "object has no attribute 'values'")
  end.

(** [str(n)]. *)
Definition str_of_nat (n : nat) : string := NilZero.string_of_uint (Nat.to_uint n).

(** The three counts of one language, and the line printed for it. *)
Definition summary_counts (data : json) : result (nat * nat * nat) :=
  match subscript data "transports" with
  | Raise e => Raise e
  | Ok t =>
      match count_true t with
      | Raise e => Raise e
      | Ok transports =>
          match subscript data "patterns" with
          | Raise e => Raise e
          | Ok p =>
              match count_true p with
              | Raise e => Raise e
              | Ok patterns_ =>
                  match subscript data "features" with
                  | Raise e => Raise e
                  | Ok f =>
                      match count_true f with
                      | Raise e => Raise e
                      | Ok features_ => Ok (transports, patterns_, features_)
                      end
                  end
              end
          end
      end
  end.

Definition summary_line (lang : string) (counts : nat * nat * nat) : string :=
  let '(transports, patterns_, features_) := counts in
  ("  " ++ lang ++ ": " ++ str_of_nat transports ++ " transports, "
   ++ str_of_nat patterns_ ++ " patterns, "
   ++ str_of_nat features_ ++ " features")%string.

(** The loop at the end of [main] over the items of
    [capabilities["languages"]]: the lines printed, and the exception that
    stopped it, if one did. *)
Fixpoint summary_loop (entries : dict) : list string * option exn :=
  match entries with
  | [] => ([], None)
  | (lang, data) :: entries' =>
      match summary_counts data with
      | Raise e => ([], Some e)
      | Ok counts =>
          let (lines, stopped) := summary_loop entries' in
          (summary_line lang counts :: lines, stopped)
      end
  end.

Definition summary (capabilities : json) : list string * option exn :=
  match subscript capabilities "languages" with
  | Raise e => ([], Some e)
  | Ok languages =>
      match items languages with
      | Raise e => ([], Some e)
      | Ok entries => summary_loop entries
      end
  end.

(** ** More vocabulary *)



(** The keys of the catalog for which the script has a probe that issues a
    call, and those for which it has no probe. *)
Definition called_keys : list string :=
  ["unary"; "unary_void"; "introspection"; "error_propagation";
   "complex_types"; "optional_types"; "producer"].

Definition unprobed_keys : list string :=
  ["producer_with_header"; "exchange_with_header"; "client_logging";
   "dataclass_types"; "annotated_types"; "authentication";
   "external_storage"; "opentelemetry"].

(** The calls of the script in the order it issues them, with or without
    the call of the introspection probe. *)
Definition call_plan (with_introspect : bool) : list (string * request) :=
  [("unary", Add 1%float 2%float); ("unary_void", VoidMethod)]
  ++ (if with_introspect then [("introspection", Introspect)] else [])
  ++ [("error_propagation", RaiseError);
      ("complex_types", EchoList [VInt 1; VInt 2; VInt 3]);
      ("optional_types", EchoOptional VNone);
      ("producer", CountStream 3)].

Definition introspect_imported (env : session) : bool :=
  match import_introspect env with
  | Returns _ => true
  | _ => false
  end.

(** The run of a child process that [probe_capabilities] answers with the
    dictionaries as first built: it hangs, raises one of the three
    exceptions of the [except] clause, exits with a status other than 0, or
    prints text that is no document. *)
Definition unusable {M : Type} (r : run M (completed (option json))) : Prop :=
  match r with
  | Stuck _ => True
  | Fault e _ =>
      existsb (is_a e) [TimeoutExpired; JSONDecodeError; FileNotFoundError] = true
  | Done result _ => returncode result <> 0%Z \/ stdout result = None
  end.

(** A conforming worker behind a connection that fails when it is closed. *)
Definition session_closing_badly : session :=
  Session true (Returns tt) (Returns tt) (Returns tt) conforming_worker
          (Raises (Exn "BrokenPipeError" "Broken pipe")).

(** A machine without git. *)
Definition spawn_nothing : list string -> option string -> prog unit (completed string) :=
  fun _ _ os => Fault (Exn FileNotFoundError "No such file or directory") os.

(** A child process that prints a document with a key of its own. *)
Definition child_with_extra_key : list string -> string -> prog unit (completed (option json)) :=
  fun _ _ os =>
    Done (CompletedProcess 0%Z
            (Some (JObj [("patterns", JObj [("unary", JBool true); ("bidi", JBool true)])])))
         os.

(** A child process that prints a fine document and exits with status 1. *)
Definition child_exiting_1 : list string -> string -> prog unit (completed (option json)) :=
  fun _ _ os =>
    Done (CompletedProcess 1%Z
            (Some (JObj [("patterns", JObj [("unary", JBool true)])])))
         os.

(** A child process that prints [null]. *)
Definition child_printing_null : list string -> string -> prog unit (completed (option json)) :=
  fun _ _ os => Done (CompletedProcess 0%Z (Some JNull)) os.

(** The dictionary a turn of the loop ended with. *)
Definition final_value_of (r : run unit dict) : dict :=
  match r with
  | Done d _ => d
  | _ => []
  end.

(** The number of values of a dictionary that count as true. *)
Definition trues (d : dict) : nat :=
  List.length (filter (fun kv => truthy (snd kv)) d).

(** The shape of the two dictionaries of a probe: the catalog keys with
    booleans, the keys without a probe at [False]. *)
Definition probed (p f : dict) : Prop :=
  (exists b1 b2 b7 b5,
      p = [("unary", JBool b1); ("unary_void", JBool b2); ("producer", JBool b7);
           ("producer_with_header", JBool false); ("exchange", JBool b5);
           ("exchange_with_header", JBool false)]) /\
  (exists b1 b3 b4 b5,
      f = [("introspection", JBool b1); ("client_logging", JBool false);
           ("error_propagation", JBool b3); ("complex_types", JBool b4);
           ("optional_types", JBool b5); ("dataclass_types", JBool false);
           ("annotated_types", JBool false); ("authentication", JBool false);
           ("external_storage", JBool false); ("opentelemetry", JBool false)]).

(** A machine on which every command succeeds and prints an empty line. *)
Definition spawn_blank : list string -> option string -> prog unit (completed string) :=
  fun _ _ os => Done (CompletedProcess 0%Z (String (ascii_of_nat 10) EmptyString)) os.

(** * Properties *)

(** ** The checks on small inputs *)

Example add_within_tolerance :
  close_to_three (VFloat (PrimFloat.add 1%float 2%float)) = Ok true /\
  close_to_three (VInt 3) = Ok true /\
  close_to_three (VFloat 3.5%float) = Ok false /\
  close_to_three (VFloat PrimFloat.nan) = Ok false.
Proof. repeat split; vm_compute; reflexivity. Qed.

Example add_of_a_string_raises :
  judge_unary (Returns (VStr "3.0")) = Some false.
Proof. reflexivity. Qed.

Example stream_of_two_is_not_three :
  judge_producer (Returns (VStream [VInt 0; VInt 1] EndOfStream)) = Some false /\
  judge_producer (Returns (VStream [VInt 0; VInt 1; VInt 2] EndOfStream)) = Some true /\
  judge_producer (Returns (VStream [VInt 0] StreamHangs)) = None.
Proof. repeat split. Qed.

Example echo_of_equal_numbers :
  eq_int_list (VList [VInt 1; VFloat 2%float; VBool false]) [1; 2; 3]%Z = false /\
  eq_int_list (VList [VBool true; VFloat 2%float; VInt 3]) [1; 2; 3]%Z = true.
Proof. repeat split; vm_compute; reflexivity. Qed.

Example strip_version_line :
  strip ("0.4.2" ++ String (ascii_of_nat 10) EmptyString) = "0.4.2".
Proof. reflexivity. Qed.

Example rpc_error_by_name :
  contains "RpcError" "RpcError" = true /\
  contains "RpcError" "VgiRpcErrorGroup" = true /\
  contains "RpcError" "RuntimeError" = false.
Proof. repeat split. Qed.

(** ** Dictionaries *)

Lemma dict_get_set_same (d : dict) (k : string) (v : json) :
  dict_get (dict_set d k v) k = Some v.
Proof.
  induction d as [|[k' v'] d IH]; simpl.
  - now rewrite String.eqb_refl.
  - destruct (String.eqb k' k) eqn:E; simpl; now rewrite E.
Qed.

Lemma dict_get_set_other (d : dict) (k k' : string) (v : json) :
  k <> k' -> dict_get (dict_set d k v) k' = dict_get d k'.
Proof.
  intros Hne. induction d as [|[k0 v0] d IH]; simpl.
  - destruct (String.eqb_spec k k'); [contradiction | reflexivity].
  - destruct (String.eqb_spec k0 k) as [->|Hk]; simpl.
    + destruct (String.eqb_spec k k'); [contradiction | reflexivity].
    + now rewrite IH.
Qed.

Lemma keys_set_present (d : dict) (k : string) (v : json) :
  In k (keys d) -> keys (dict_set d k v) = keys d.
Proof.
  induction d as [|[k' v'] d IH]; simpl; [tauto|].
  intros [->|Hin].
  - now rewrite String.eqb_refl.
  - destruct (String.eqb k' k); simpl; [reflexivity | now rewrite IH].
Qed.

Lemma keys_set_absent (d : dict) (k : string) (v : json) :
  ~ In k (keys d) -> keys (dict_set d k v) = keys d ++ [k].
Proof.
  induction d as [|[k' v'] d IH]; simpl; [reflexivity|].
  intros Hnot. destruct (String.eqb_spec k' k) as [->|Hk]; [tauto|].
  simpl. rewrite IH; [reflexivity | tauto].
Qed.

Lemma keys_update_within (other d : dict) :
  incl (keys other) (keys d) -> keys (dict_update d other) = keys d.
Proof.
  unfold dict_update. revert d.
  induction other as [|[k v] other IH]; intros d Hincl; simpl; [reflexivity|].
  assert (Hk : In k (keys d)) by (apply Hincl; now left).
  rewrite IH; [now apply keys_set_present|].
  rewrite keys_set_present by assumption.
  intros x Hx. apply Hincl. now right.
Qed.

Lemma dict_get_absent (d : dict) (k : string) :
  ~ In k (keys d) -> dict_get d k = None.
Proof.
  induction d as [|[k' v'] d IH]; simpl; [reflexivity|].
  intros Hnot. destruct (String.eqb_spec k' k); [tauto | apply IH; tauto].
Qed.

Lemma dict_get_present (d : dict) (k : string) :
  In k (keys d) -> exists v, dict_get d k = Some v.
Proof.
  induction d as [|[k' v'] d IH]; simpl; [tauto|].
  intros [->|Hin].
  - rewrite String.eqb_refl. now exists v'.
  - destruct (String.eqb k' k); [now exists v' | now apply IH].
Qed.

Lemma zero_PATTERNS : dict_comprehension PATTERNS (JBool false) = zero PATTERNS.
Proof. reflexivity. Qed.

Lemma zero_FEATURES : dict_comprehension FEATURES (JBool false) = zero FEATURES.
Proof. reflexivity. Qed.

Lemma keys_zero (catalog : list string) : keys (zero catalog) = catalog.
Proof.
  unfold keys, zero. rewrite map_map. simpl. apply map_id.
Qed.

(** ** The probes, one by one

    Each probe comes down to its verdict on the outcome of its own call. *)

Section ProbeEquations.

Variable env : session.

Lemma probe_unary_eq (s : sstate) :
  probe_unary env s =
  let o := answer env s (Add 1%float 2%float) in
  match judge_unary o with
  | Some b => set_pattern "unary" b (logged "unary" (Add 1%float 2%float) o s)
  | None => Stuck (logged "unary" (Add 1%float 2%float) o s)
  end.
Proof.
  unfold probe_unary, try_except, bind, proxy_call. cbv zeta.
  destruct (answer env s (Add 1%float 2%float)) as [r|e|]; simpl; try reflexivity.
  unfold lift. destruct (close_to_three r); reflexivity.
Qed.

Lemma probe_unary_void_eq (s : sstate) :
  probe_unary_void env s =
  let o := answer env s VoidMethod in
  match judge_unary_void o with
  | Some b => set_pattern "unary_void" b (logged "unary_void" VoidMethod o s)
  | None => Stuck (logged "unary_void" VoidMethod o s)
  end.
Proof.
  unfold probe_unary_void, try_except, bind, proxy_call. cbv zeta.
  destruct (answer env s VoidMethod); reflexivity.
Qed.

Lemma probe_introspection_eq (s : sstate) :
  probe_introspection env s =
  match import_introspect env with
  | Returns _ =>
      let o := answer env s Introspect in
      match judge_introspection o with
      | Some b => set_feature "introspection" b (logged "introspection" Introspect o s)
      | None => Stuck (logged "introspection" Introspect o s)
      end
  | Raises _ => set_feature "introspection" false s
  | Hangs => Stuck s
  end.
Proof.
  unfold probe_introspection, try_except, bind, proxy_call. cbv zeta.
  destruct (import_introspect env); simpl; try reflexivity.
  destruct (answer env s Introspect) as [r|e|]; simpl; try reflexivity.
  unfold lift. destruct (has_methods r); reflexivity.
Qed.

Lemma probe_error_propagation_eq (s : sstate) :
  probe_error_propagation env s =
  let o := answer env s RaiseError in
  match judge_error_propagation o with
  | Some b =>
      set_feature "error_propagation" b (logged "error_propagation" RaiseError o s)
  | None => Stuck (logged "error_propagation" RaiseError o s)
  end.
Proof.
  unfold probe_error_propagation, try_except, bind, proxy_call. cbv zeta.
  destruct (answer env s RaiseError); reflexivity.
Qed.

Lemma probe_complex_types_eq (s : sstate) :
  probe_complex_types env s =
  let req := EchoList [VInt 1; VInt 2; VInt 3] in
  let o := answer env s req in
  match judge_complex_types o with
  | Some b => set_feature "complex_types" b (logged "complex_types" req o s)
  | None => Stuck (logged "complex_types" req o s)
  end.
Proof.
  unfold probe_complex_types, try_except, bind, proxy_call. cbv zeta.
  destruct (answer env s (EchoList _)); reflexivity.
Qed.

Lemma probe_optional_types_eq (s : sstate) :
  probe_optional_types env s =
  let o := answer env s (EchoOptional VNone) in
  match judge_optional_types o with
  | Some b =>
      set_feature "optional_types" b (logged "optional_types" (EchoOptional VNone) o s)
  | None => Stuck (logged "optional_types" (EchoOptional VNone) o s)
  end.
Proof.
  unfold probe_optional_types, try_except, bind, proxy_call. cbv zeta.
  destruct (answer env s (EchoOptional VNone)); reflexivity.
Qed.

Lemma count_from (batches : list value) (count : Z) :
  fold_left (fun c (_ : value) => (c + 1)%Z) batches count
  = (count + Z.of_nat (List.length batches))%Z.
Proof.
  revert count. induction batches as [|b batches IH]; intros count; simpl.
  - lia.
  - rewrite IH. lia.
Qed.

Lemma probe_producer_eq (s : sstate) :
  probe_producer env s =
  let o := answer env s (CountStream 3) in
  match judge_producer o with
  | Some b => set_pattern "producer" b (logged "producer" (CountStream 3) o s)
  | None => Stuck (logged "producer" (CountStream 3) o s)
  end.
Proof.
  unfold probe_producer, try_except, bind, proxy_call. cbv zeta.
  destruct (answer env s (CountStream 3)) as [r|e|]; simpl; try reflexivity.
  unfold lift. destruct (iterate r) as [[batches stop]|e]; simpl; [|reflexivity].
  unfold count_batches. simpl. destruct stop; simpl; try reflexivity.
  rewrite count_from. simpl.
  replace (Z.of_nat (List.length batches) =? 3)%Z
    with (Nat.eqb (List.length batches) 3); [reflexivity|].
  destruct (Nat.eqb_spec (List.length batches) 3) as [->|Hne]; [reflexivity|].
  symmetry. apply Z.eqb_neq. lia.
Qed.

Lemma probe_exchange_eq (s : sstate) :
  probe_exchange s = set_pattern "exchange" true s.
Proof. reflexivity. Qed.

End ProbeEquations.

(** ** The script as a whole *)

Ltac forget_answer :=
  match goal with
  | |- context [answer ?env ?s ?req] =>
      let o := fresh "o" in generalize (answer env s req); intro o
  end.

Ltac probe_step eqn_lemma H :=
  rewrite eqn_lemma; cbv zeta; forget_answer;
  match goal with
  | |- context [match ?j ?o with Some _ => _ | None => _ end] =>
      destruct (j o) eqn:H; [unfold set_pattern, set_feature; simpl | exact I]
  end.

(** The probes never raise, and when none of them stalls they leave the
    script in a completed state. *)
Lemma probes_from_initial (env : session) :
  match probes env initial with
  | Done _ s => probes_completed env s
  | Fault _ _ => False
  | Stuck _ => True
  end.
Proof.
  unfold probes, bind.
  probe_step probe_unary_eq H1.
  probe_step probe_unary_void_eq H2.
  rewrite probe_introspection_eq.
  destruct (import_introspect env) as [[]|e|] eqn:Himp; [| |exact I].
  - cbv zeta. forget_answer.
    destruct (judge_introspection _) eqn:H3;
      [unfold set_feature; simpl | exact I].
    probe_step probe_error_propagation_eq H4.
    probe_step probe_complex_types_eq H5.
    probe_step probe_optional_types_eq H6.
    probe_step probe_producer_eq H7.
    unfold probe_exchange, try_except, set_pattern; simpl.
    eapply (@ProbesCompleted env _ _ _ _ _ _ [_]);
      try eassumption.
    left. split; [assumption|]. eexists. split; [reflexivity | eassumption].
  - unfold set_feature; simpl.
    probe_step probe_error_propagation_eq H4.
    probe_step probe_complex_types_eq H5.
    probe_step probe_optional_types_eq H6.
    probe_step probe_producer_eq H7.
    unfold probe_exchange, try_except, set_pattern; simpl.
    eapply (@ProbesCompleted env _ _ _ _ _ _ []);
      try eassumption.
    right. exists e. auto.
Qed.

Lemma script_main_done (env : session) (s : sstate) :
  script_main env initial = Done tt s ->
  import_vgi_rpc env = Returns tt /\ connect_enter env = Returns tt /\
  connect_exit env = Returns tt /\ probes_completed env s.
Proof.
  unfold script_main, bind, with_connect, effect.
  destruct (import_vgi_rpc env) as [[]|e|]; try discriminate.
  destruct (connect_enter env) as [[]|e|]; try discriminate.
  pose proof (probes_from_initial env) as Hp.
  destruct (probes env initial) as [[] s'|e s'|s']; try discriminate.
  - destruct (connect_exit env) as [[]|e|]; try discriminate.
    intros [= <-]. auto.
  - contradiction.
Qed.

Lemma script_main_unestablished (env : session) :
  match import_vgi_rpc env, connect_enter env with
  | Returns _, Returns _ => False
  | _, _ => True
  end ->
  final_state (script_main env initial) = initial /\ prints_results env = false.
Proof.
  unfold prints_results, script_main, bind, with_connect, effect.
  destruct (import_vgi_rpc env) as [[]|e|]; simpl; auto.
  destruct (connect_enter env) as [[]|e|]; simpl; auto.
  contradiction.
Qed.

(** ** From the script's output to the capability dictionaries *)

Lemma probe_of_results (cmd : option (list string)) (repo_dir : string)
    (env : session) (s : sstate) :
  falsy cmd = false -> cwd_exists env = true ->
  script_main env initial = Done tt s ->
  probe cmd repo_dir env
  = Done (dict_update (zero PATTERNS) (results_patterns s),
          dict_update (zero FEATURES) (results_features s)) tt.
Proof.
  intros Hcmd Hcwd Hmain.
  destruct cmd as [[|c cmd]|]; try discriminate.
  unfold probe, probe_capabilities, try_except_of, try_except, bind, with_timeout,
    python_c_probe_script, probe_script.
  rewrite Hcwd, Hmain. reflexivity.
Qed.

Lemma probe_of_nothing (cmd : option (list string)) (repo_dir : string)
    (env : session) :
  falsy cmd = true \/ cwd_exists env = false \/ prints_results env = false ->
  probe cmd repo_dir env = Done (zero PATTERNS, zero FEATURES) tt.
Proof.
  intros H.
  destruct cmd as [[|c cmd]|]; try reflexivity.
  destruct H as [H|[H|H]]; [discriminate| |];
    unfold probe, probe_capabilities, try_except_of, try_except, bind, with_timeout,
      python_c_probe_script, probe_script.
  - rewrite H. reflexivity.
  - unfold prints_results in H.
    destruct (cwd_exists env); [|reflexivity].
    destruct (script_main env initial) as [[] s|e s|s]; try discriminate; reflexivity.
Qed.

(** Either the script printed its results and they were folded in, or the
    dictionaries are returned as first built. *)
Lemma probe_cases (cmd : option (list string)) (repo_dir : string) (env : session) :
  (falsy cmd = false /\ cwd_exists env = true /\
   exists s, script_main env initial = Done tt s /\
     probe cmd repo_dir env
     = Done (dict_update (zero PATTERNS) (results_patterns s),
             dict_update (zero FEATURES) (results_features s)) tt) \/
  ((falsy cmd = true \/ cwd_exists env = false \/ prints_results env = false) /\
   probe cmd repo_dir env = Done (zero PATTERNS, zero FEATURES) tt).
Proof.
  destruct (falsy cmd) eqn:Hcmd;
    [right; split; [auto | apply probe_of_nothing; auto]|].
  destruct (cwd_exists env) eqn:Hcwd;
    [|right; split; [auto | apply probe_of_nothing; auto]].
  destruct (script_main env initial) as [[] s|e s|s] eqn:Hmain.
  - left. repeat split; trivial. exists s. split; [reflexivity|].
    now apply probe_of_results.
  - right. assert (prints_results env = false)
      by (unfold prints_results; now rewrite Hmain).
    split; [auto | apply probe_of_nothing; auto].
  - right. assert (prints_results env = false)
      by (unfold prints_results; now rewrite Hmain).
    split; [auto | apply probe_of_nothing; auto].
Qed.

(** ** One probe run *)

(** C1: whatever the worker command and whatever happens in the session, a
    probe run returns two dictionaries whose keys are exactly [PATTERNS] and
    exactly [FEATURES], in catalog order. *)
Theorem probe_keys_are_the_catalog (cmd : option (list string)) (repo_dir : string)
    (env : session) :
  exists patterns features,
    probe cmd repo_dir env = Done (patterns, features) tt /\
    keys patterns = PATTERNS /\ keys features = FEATURES.
Proof.
  destruct (probe_cases cmd repo_dir env)
    as [(_ & _ & s & Hmain & ->)|(_ & ->)].
  - apply script_main_done in Hmain as (_ & _ & _ & Hs).
    destruct Hs. do 2 eexists. split; [reflexivity|]. split; reflexivity.
  - do 2 eexists. split; [reflexivity|]. split; apply keys_zero.
Qed.

(** C2: when the session is not established (no worker command, no working
    directory, a failing import, or a [connect] that raises or hangs), no
    call is issued on a proxy and the probe returns the all-false
    dictionaries. *)
Theorem no_session_zero_result (cmd : option (list string)) (repo_dir : string)
    (env : session) :
  established cmd env = false ->
  probe cmd repo_dir env = Done (zero PATTERNS, zero FEATURES) tt /\
  probe_calls cmd env = [].
Proof.
  unfold established, probe_calls. intros H.
  destruct (falsy cmd) eqn:Hcmd; simpl in *;
    [split; [apply probe_of_nothing; auto | reflexivity]|].
  destruct (cwd_exists env) eqn:Hcwd; simpl in *;
    [|split; [apply probe_of_nothing; auto | reflexivity]].
  destruct (script_main_unestablished env) as [Hfin Hpr].
  { destruct (import_vgi_rpc env), (connect_enter env); trivial; discriminate. }
  split; [apply probe_of_nothing; auto|].
  unfold script_calls. now rewrite Hfin.
Qed.

(** C2 at work: a worker that cannot be launched. *)
Lemma no_session_zero_result_witness :
  established sample_cmd session_without_worker = false /\
  probe sample_cmd "repo" session_without_worker
  = Done (zero PATTERNS, zero FEATURES) tt /\
  probe_calls sample_cmd session_without_worker = [].
Proof.
  split; [reflexivity|].
  apply (no_session_zero_result sample_cmd "repo" session_without_worker).
  reflexivity.
Defined.

Lemma judge_of_completed (env : session) (s : sstate) (c : call) :
  probes_completed env s -> In c (calls s) ->
  exists b,
    judge (call_probe c) (call_outcome c) = Some b /\
    recorded (dict_update (zero PATTERNS) (results_patterns s),
              dict_update (zero FEATURES) (results_features s)) (call_probe c)
    = Some (JBool b) /\
    (forall e, call_outcome c = Raises e ->
               call_probe c <> "error_propagation" -> b = false).
Proof.
  intros Hs Hin. destruct Hs as [o1 o2 o4 o5 o6 o7 issued3 b1 b2 b3 b4 b5 b6 b7
                                   H1 H2 H3 H4 H5 H6 H7].
  simpl in Hin.
  destruct Hin as [ <- | [ <- | Hin ] ].
  - exists b1. repeat split; trivial.
    simpl. intros e -> _. simpl in H1. congruence.
  - exists b2. repeat split; trivial.
    simpl. intros e -> _. simpl in H2. congruence.
  - apply in_app_or in Hin as [Hin|Hin].
    + destruct H3 as [(_ & o3 & -> & H3)|(e & _ & -> & _)]; [|contradiction].
      destruct Hin as [ <- | F ]; [|contradiction].
      exists b3. repeat split; trivial.
      simpl. intros e -> _. simpl in H3. congruence.
    + destruct Hin as [ <- | [ <- | [ <- | [ <- | F ] ] ] ]; [| | | |contradiction].
      * exists b4. repeat split; trivial.
        intros e _ Hne. now contradiction Hne.
      * exists b5. repeat split; trivial.
        simpl. intros e -> _. simpl in H5. congruence.
      * exists b6. repeat split; trivial.
        simpl. intros e -> _. simpl in H6. congruence.
      * exists b7. repeat split; trivial.
        simpl. intros e -> _. simpl in H7. congruence.
Qed.

(** C3, as the code has it: in a run that reaches the end of the script,
    the value recorded for a probe that issued a call is that probe's verdict
    on the outcome of its own call, and [False] when that call raised (the
    error-propagation probe apart, which expects the exception); in every
    other run, a call that hangs included, all keys are [False]. *)
Theorem own_call_decides (cmd : option (list string)) (repo_dir : string)
    (env : session) :
  exists pf,
    probe cmd repo_dir env = Done pf tt /\
    if negb (falsy cmd) && cwd_exists env && prints_results env
    then forall c, In c (probe_calls cmd env) ->
           exists b,
             judge (call_probe c) (call_outcome c) = Some b /\
             recorded pf (call_probe c) = Some (JBool b) /\
             (forall e, call_outcome c = Raises e ->
                        call_probe c <> "error_propagation" -> b = false)
    else pf = (zero PATTERNS, zero FEATURES).
Proof.
  destruct (probe_cases cmd repo_dir env)
    as [(Hcmd & Hcwd & s & Hmain & ->)|(Hno & ->)]; eexists; (split; [reflexivity|]).
  - unfold prints_results, probe_calls, script_calls.
    rewrite Hcmd, Hcwd, Hmain. simpl.
    intros c Hin. apply script_main_done in Hmain as (_ & _ & _ & Hs).
    now apply judge_of_completed with (env := env).
  - destruct Hno as [ -> | [ -> | -> ] ]; simpl; trivial.
    + now rewrite andb_false_r.
    + now rewrite andb_false_r.
Qed.

(** C3 as stated fails: with a worker whose addition is right, the unary
    probe records [True]; let only the stream of the producer probe hang,
    and the value returned for [unary] is [False]. *)
Lemma hang_zeroes_the_other_probes :
  (forall h req, (forall n, req <> CountStream n) ->
                 stalling_worker h req = conforming_worker h req) /\
  (exists pf, probe sample_cmd "repo" (session_with conforming_worker) = Done pf tt /\
              recorded pf "unary" = Some (JBool true)) /\
  (exists pf, probe sample_cmd "repo" (session_with stalling_worker) = Done pf tt /\
              recorded pf "unary" = Some (JBool false)).
Proof.
  split; [|split].
  - intros h req Hreq. destruct req; try reflexivity.
    now contradiction (Hreq n).
  - eexists. split; [vm_compute; reflexivity | reflexivity].
  - eexists. split; [vm_compute; reflexivity | reflexivity].
Qed.

(** C4, as the code has it: a script that runs to its end has run the eight
    probes it defines, once each and in this order, issuing seven calls with
    their fixed arguments (six when [introspect] cannot be imported; the
    exchange probe issues none); it has recorded these eight keys and no
    other key of the catalog. *)
Theorem script_runs_its_eight_probes (env : session) (s : sstate) :
  script_main env initial = Done tt s ->
  keys (results_patterns s) = ["unary"; "unary_void"; "producer"; "exchange"] /\
  keys (results_features s)
  = ["introspection"; "error_propagation"; "complex_types"; "optional_types"] /\
  exists issued3,
    (issued3 = [("introspection", Introspect)] \/ issued3 = []) /\
    map (fun c => (call_probe c, call_request c)) (calls s)
    = [("unary", Add 1%float 2%float); ("unary_void", VoidMethod)]
      ++ issued3
      ++ [("error_propagation", RaiseError);
          ("complex_types", EchoList [VInt 1; VInt 2; VInt 3]);
          ("optional_types", EchoOptional VNone);
          ("producer", CountStream 3)].
Proof.
  intros Hmain. apply script_main_done in Hmain as (_ & _ & _ & Hs).
  destruct Hs as [o1 o2 o4 o5 o6 o7 issued3 b1 b2 b3 b4 b5 b6 b7
                    H1 H2 H3 H4 H5 H6 H7].
  split; [reflexivity|]. split; [reflexivity|].
  destruct H3 as [(_ & o3 & -> & _)|(e & _ & -> & _)].
  - exists [("introspection", Introspect)]. split; [now left | reflexivity].
  - exists []. split; [now right | reflexivity].
Qed.

(** C4 at work: the script against a conforming worker. *)
Lemma script_runs_its_eight_probes_witness :
  exists s,
    script_main (session_with conforming_worker) initial = Done tt s /\
    keys (results_patterns s) = ["unary"; "unary_void"; "producer"; "exchange"] /\
    keys (results_features s)
    = ["introspection"; "error_propagation"; "complex_types"; "optional_types"].
Proof.
  eexists. split; [vm_compute; reflexivity|].
  pose proof (script_runs_its_eight_probes (session_with conforming_worker)
                (s := final_state (script_main (session_with conforming_worker) initial))
                eq_refl) as (Hp & Hf & _).
  split; [exact Hp | exact Hf].
Defined.

(** C4 as stated fails: with a conforming worker and an established session
    the script issues seven calls and records eight of the sixteen keys;
    nothing is ever called or recorded for, say, [authentication]. *)
Lemma half_the_catalog_is_never_probed :
  established sample_cmd (session_with conforming_worker) = true /\
  prints_results (session_with conforming_worker) = true /\
  map call_probe (probe_calls sample_cmd (session_with conforming_worker))
  = ["unary"; "unary_void"; "introspection"; "error_propagation";
     "complex_types"; "optional_types"; "producer"] /\
  dict_get (results_features
              (final_state (script_main (session_with conforming_worker) initial)))
           "authentication" = None /\
  List.length PATTERNS + List.length FEATURES = 16.
Proof. repeat split; vm_compute; reflexivity. Qed.

Lemma judge_unary_true (o : outcome value) :
  judge_unary o = Some true -> exists r, o = Returns r /\ close_to_three r = Ok true.
Proof.
  destruct o as [r|e|]; simpl; try discriminate.
  destruct (close_to_three r) as [b|e] eqn:E; intros [= H]; subst; eauto.
Qed.

Lemma judge_unary_void_true (o : outcome value) :
  judge_unary_void o = Some true -> exists r, o = Returns r.
Proof. destruct o as [r|e|]; simpl; try discriminate. eauto. Qed.

Lemma judge_producer_true (o : outcome value) :
  judge_producer o = Some true ->
  exists stream batches,
    o = Returns stream /\ iterate stream = Ok (batches, EndOfStream) /\
    List.length batches = 3.
Proof.
  destruct o as [r|e|]; simpl; try discriminate.
  destruct (iterate r) as [[batches [|e|]]|e] eqn:E; try discriminate.
  intros [= H]. apply Nat.eqb_eq in H. eauto.
Qed.

(** C5, as the code has it: [unary] is [True] only after [add(a=1.0, b=2.0)]
    was issued and returned a value within 0.001 of 3.0; [unary_void] only
    after [void_method()] was issued and returned; [producer] only after
    [count_stream(n=3)] was issued and its stream ended after exactly three
    batches; [exchange] is [True] exactly when the script ran to its end,
    whatever the worker did; the two header patterns are always [False]. *)
Theorem true_patterns_and_their_calls (cmd : option (list string))
    (repo_dir : string) (env : session) :
  exists pf,
    probe cmd repo_dir env = Done pf tt /\
    (dict_get (fst pf) "unary" = Some (JBool true) ->
     exists r, In (Call "unary" (Add 1%float 2%float) (Returns r)) (probe_calls cmd env) /\
               close_to_three r = Ok true) /\
    (dict_get (fst pf) "unary_void" = Some (JBool true) ->
     exists r, In (Call "unary_void" VoidMethod (Returns r)) (probe_calls cmd env)) /\
    (dict_get (fst pf) "producer" = Some (JBool true) ->
     exists stream batches,
       In (Call "producer" (CountStream 3) (Returns stream)) (probe_calls cmd env) /\
       iterate stream = Ok (batches, EndOfStream) /\ List.length batches = 3) /\
    (dict_get (fst pf) "exchange"
     = Some (JBool (negb (falsy cmd) && cwd_exists env && prints_results env))) /\
    dict_get (fst pf) "producer_with_header" = Some (JBool false) /\
    dict_get (fst pf) "exchange_with_header" = Some (JBool false).
Proof.
  destruct (probe_cases cmd repo_dir env)
    as [(Hcmd & Hcwd & s & Hmain & ->)|(Hno & ->)]; eexists; (split; [reflexivity|]).
  - unfold prints_results, probe_calls, script_calls.
    rewrite Hcmd, Hcwd, Hmain. simpl negb. simpl orb. cbv iota. simpl final_state.
    apply script_main_done in Hmain as (_ & _ & _ & Hs).
    destruct Hs as [o1 o2 o4 o5 o6 o7 issued3 b1 b2 b3 b4 b5 b6 b7
                      H1 H2 H3 H4 H5 H6 H7].
    simpl fst. simpl calls.
    repeat split; try reflexivity.
    + intros [= ->]. apply judge_unary_true in H1 as (r & -> & Hr).
      exists r. split; [now left | assumption].
    + intros [= ->]. apply judge_unary_void_true in H2 as (r & ->).
      exists r. right. now left.
    + intros [= ->]. apply judge_producer_true in H7 as (st & bs & -> & Hit & Hlen).
      exists st, bs. split; [|split; assumption].
      right. right. apply in_or_app. right. simpl. tauto.
  - assert (Hb : negb (falsy cmd) && cwd_exists env && prints_results env = false).
    { destruct Hno as [ -> | [ -> | -> ] ]; simpl; trivial; now rewrite andb_false_r. }
    rewrite Hb. repeat split; try reflexivity; discriminate.
Qed.

(** C5 as stated fails: a worker that refuses every call still gets
    [exchange] reported [True], and the exchange probe issued no call. *)
Lemma exchange_is_true_without_a_call :
  (forall h req, exists e, refusing_worker h req = Raises e) /\
  (exists pf, probe sample_cmd "repo" (session_with refusing_worker) = Done pf tt /\
              dict_get (fst pf) "exchange" = Some (JBool true)) /\
  calls_of "exchange" (probe_calls sample_cmd (session_with refusing_worker)) = [].
Proof.
  split; [|split].
  - intros h req. eexists. reflexivity.
  - eexists. split; [vm_compute; reflexivity | reflexivity].
  - vm_compute. reflexivity.
Qed.

Lemma judge_error_propagation_true (o : outcome value) :
  judge_error_propagation o = Some true <->
  exists e, o = Raises e /\ contains "RpcError" (exn_type e) = true.
Proof.
  split.
  - destruct o as [r|e|]; simpl; try discriminate. intros [= H]. eauto.
  - intros (e & -> & H). simpl. now rewrite H.
Qed.

(** C6: the error-propagation probe records [True] exactly when the call of
    [raise_error()] raised an exception whose type name contains [RpcError],
    and [False] when the call returned.  So does the probe taken alone, in
    any state of the script, and so does the whole run: the value returned
    for [error_propagation] is [True] exactly when the script ran to its end
    and that call raised such an exception. *)
Theorem error_propagation_iff_rpc_error (env : session) :
  (forall s,
     let o := answer env s RaiseError in
     let s' := logged "error_propagation" RaiseError o s in
     match o with
     | Hangs => probe_error_propagation env s = Stuck s'
     | _ =>
         exists b,
           probe_error_propagation env s = set_feature "error_propagation" b s' /\
           (b = true <-> exists e, o = Raises e /\
                                   contains "RpcError" (exn_type e) = true) /\
           (forall r, o = Returns r -> b = false)
     end) /\
  (forall cmd repo_dir,
     exists pf,
       probe cmd repo_dir env = Done pf tt /\
       (dict_get (snd pf) "error_propagation" = Some (JBool true) <->
        negb (falsy cmd) && cwd_exists env && prints_results env = true /\
        exists e,
          In (Call "error_propagation" RaiseError (Raises e)) (probe_calls cmd env) /\
          contains "RpcError" (exn_type e) = true)).
Proof.
  split.
  - intros s. cbv zeta. rewrite probe_error_propagation_eq. cbv zeta.
    destruct (answer env s RaiseError) as [r|e|] eqn:Ho; simpl; [| |reflexivity].
    + exists false. split; [reflexivity|]. split; [|reflexivity].
      split; [discriminate | intros (e & He & _); discriminate].
    + exists (contains "RpcError" (exn_type e)). split; [reflexivity|].
      split; [|discriminate].
      split; [intros H; now exists e | now intros (e' & [= <-] & H)].
  - intros cmd repo_dir.
    destruct (probe_cases cmd repo_dir env)
      as [(Hcmd & Hcwd & s & Hmain & ->)|(Hno & ->)];
      eexists; (split; [reflexivity|]).
    + unfold prints_results, probe_calls, script_calls.
      rewrite Hcmd, Hcwd, Hmain. simpl negb. simpl orb. cbv iota. simpl final_state.
      apply script_main_done in Hmain as (_ & _ & _ & Hs).
      destruct Hs as [o1 o2 o4 o5 o6 o7 issued3 b1 b2 b3 b4 b5 b6 b7
                        H1 H2 H3 H4 H5 H6 H7].
      simpl snd. simpl calls. split.
      * intros [= ->]. split; [reflexivity|].
        apply judge_error_propagation_true in H4 as (e & -> & He).
        exists e. split; [|assumption].
        right. right. apply in_or_app. right. now left.
      * intros (_ & e & Hin & He).
        assert (Ho : o4 = Raises e).
        { destruct Hin as [ [=] | [ [=] | Hin ] ].
          apply in_app_or in Hin as [Hin|Hin].
          - destruct H3 as [(_ & o3 & -> & _)|(e' & _ & -> & _)];
              [destruct Hin as [ [=] | F ]; contradiction | contradiction].
          - destruct Hin as [ [= ->] | [ [=] | [ [=] | [ [=] | F ] ] ] ];
              [reflexivity | contradiction]. }
        subst o4. simpl in H4. rewrite He in H4. injection H4 as <-. reflexivity.
    + split.
      * discriminate.
      * intros (Hb & _).
        destruct Hno as [H|[H|H]]; rewrite H in Hb; simpl in Hb;
          try discriminate; rewrite ?andb_false_r in Hb; discriminate.
Qed.

(** ** Probing twice *)

Ltac same_probe eqn_lemma Himp Hw :=
  intros; rewrite !eqn_lemma; cbv zeta; unfold answer;
  rewrite ?Himp, ?Hw; reflexivity.

Lemma probes_same_answers (env env' : session) (s : sstate) :
  same_answers env env' -> probes env' s = probes env s.
Proof.
  intros (_ & _ & _ & Himp & _ & Hw).
  assert (P1 : forall s, probe_unary env' s = probe_unary env s)
    by same_probe probe_unary_eq Himp Hw.
  assert (P2 : forall s, probe_unary_void env' s = probe_unary_void env s)
    by same_probe probe_unary_void_eq Himp Hw.
  assert (P3 : forall s, probe_introspection env' s = probe_introspection env s)
    by same_probe probe_introspection_eq Himp Hw.
  assert (P4 : forall s, probe_error_propagation env' s = probe_error_propagation env s)
    by same_probe probe_error_propagation_eq Himp Hw.
  assert (P5 : forall s, probe_complex_types env' s = probe_complex_types env s)
    by same_probe probe_complex_types_eq Himp Hw.
  assert (P6 : forall s, probe_optional_types env' s = probe_optional_types env s)
    by same_probe probe_optional_types_eq Himp Hw.
  assert (P7 : forall s, probe_producer env' s = probe_producer env s)
    by same_probe probe_producer_eq Himp Hw.
  unfold probes, bind.
  rewrite P1. destruct (probe_unary env s) as [[] s1|e s1|s1]; try reflexivity.
  rewrite P2. destruct (probe_unary_void env s1) as [[] s2|e s2|s2]; try reflexivity.
  rewrite P3. destruct (probe_introspection env s2) as [[] s3|e s3|s3]; try reflexivity.
  rewrite P4.
  destruct (probe_error_propagation env s3) as [[] s4|e s4|s4]; try reflexivity.
  rewrite P5. destruct (probe_complex_types env s4) as [[] s5|e s5|s5]; try reflexivity.
  rewrite P6. destruct (probe_optional_types env s5) as [[] s6|e s6|s6]; try reflexivity.
  rewrite P7. reflexivity.
Qed.

Lemma script_main_same_answers (env env' : session) :
  same_answers env env' -> script_main env' initial = script_main env initial.
Proof.
  intros H. pose proof H as (_ & Hi & Hc & _ & Hx & _).
  unfold script_main, bind, with_connect. rewrite Hi, Hc, Hx.
  destruct (effect (import_vgi_rpc env) initial) as [[] s|e s|s]; try reflexivity.
  destruct (effect (connect_enter env) s) as [[] s1|e s1|s1]; try reflexivity.
  now rewrite (probes_same_answers s1 H).
Qed.

Lemma probe_same_answers (cmd : option (list string)) (repo_dir : string)
    (env env' : session) :
  same_answers env env' -> probe cmd repo_dir env' = probe cmd repo_dir env.
Proof.
  intros H. pose proof (script_main_same_answers H) as Hmain.
  destruct H as (Hcwd & _).
  unfold probe, probe_capabilities, python_c_probe_script, probe_script.
  now rewrite Hcwd, Hmain.
Qed.

(** C9: a worker whose answers do not depend on what it served before is
    probed to the same result a second time, when it resumes after the calls
    of the first probe and nothing else of the session has changed. *)
Theorem reprobing_gives_the_same_result (cmd : option (list string))
    (repo_dir : string) (env : session) :
  stateless (worker env) ->
  probe cmd repo_dir (resumed env (map call_request (probe_calls cmd env)))
  = probe cmd repo_dir env.
Proof.
  intros Hw. apply probe_same_answers.
  repeat split. intros h req. simpl. apply Hw.
Qed.

(** C9 at work: the conforming worker answers from the request alone. *)
Lemma reprobing_gives_the_same_result_witness :
  stateless conforming_worker /\
  probe sample_cmd "repo"
    (resumed (session_with conforming_worker)
       (map call_request (probe_calls sample_cmd (session_with conforming_worker))))
  = probe sample_cmd "repo" (session_with conforming_worker).
Proof.
  assert (H : stateless conforming_worker) by (intros h h' req; reflexivity).
  split; [exact H|].
  exact (reprobing_gives_the_same_result sample_cmd "repo"
           (session_with conforming_worker) H).
Defined.

(** ** The snapshot *)

Lemma probe_total (cmd : option (list string)) (repo_dir : string) (env : session) :
  exists p f, probe cmd repo_dir env = Done (p, f) tt /\
              keys p = PATTERNS /\ keys f = FEATURES.
Proof.
  destruct (probe_cases cmd repo_dir env)
    as [(_ & _ & s & Hmain & ->)|(_ & ->)].
  - apply script_main_done in Hmain as (_ & _ & _ & Hs).
    destruct Hs. now do 2 eexists.
  - do 2 eexists. split; [reflexivity|]. now rewrite !keys_zero.
Qed.

Section OrchestrationProperties.

Variable OS : Type.
Variable path_exists : OS -> string -> bool.
Variable spawn : list string -> option string -> prog OS (completed string).
Variable probe_session : list string -> string -> OS -> session * OS.
Variable utcnow_isoformat : OS -> string.

Ltac caught_or_not :=
  match goal with
  | |- context [if ?b then _ else _] =>
      destruct b; [now intros [= <- <-] | discriminate]
  end.

(** On the machine, [probe_capabilities] is [probe] in the session met. *)
Lemma probe_capabilities_on_os (cmd : option (list string)) (repo_dir : string)
    (os : OS) :
  exists p f os',
    probe_capabilities (python_c_on_os probe_session) cmd repo_dir os
    = Done (p, f) os' /\
    keys p = PATTERNS /\ keys f = FEATURES /\
    (falsy cmd = true -> p = zero PATTERNS /\ f = zero FEATURES /\ os' = os).
Proof.
  destruct cmd as [[|c cmd]|];
    try (exists (zero PATTERNS), (zero FEATURES), os; repeat split; apply keys_zero).
  destruct (probe_session (c :: cmd) repo_dir os) as [env os'] eqn:Hs.
  destruct (probe_total (Some (c :: cmd)) repo_dir env) as (p & f & Hp & Kp & Kf).
  exists p, f, os'. repeat split; trivial; try discriminate.
  revert Hp.
  unfold probe, probe_capabilities, try_except_of, try_except, bind, with_timeout,
    python_c_on_os, effect.
  rewrite Hs.
  destruct (python_c_probe_script env) as [[rc out]|e|]; simpl.
  - destruct (rc =? 0)%Z; [|now intros [= <- <-]].
    unfold lift.
    destruct (json_loads out) as [data|e]; simpl; [|caught_or_not].
    destruct (json_get data "patterns" (JObj [])) as [dp|e]; simpl; [|caught_or_not].
    destruct (update _ dp) as [p'|e]; simpl; [|caught_or_not].
    destruct (json_get data "features" (JObj [])) as [df|e]; simpl; [|caught_or_not].
    destruct (update _ df) as [f'|e]; simpl; [|caught_or_not].
    now intros [= <- <-].
  - caught_or_not.
  - now intros [= <- <-].
Qed.

(** One turn of the loop, when it ends, has written one such record under
    the name of the language. *)
Lemma test_language_done (repos_dir lang : string) (config : lang_config)
    (languages d' : dict) (os os' : OS) :
  test_language path_exists spawn probe_session repos_dir (lang, config) languages os
  = Done d' os' ->
  exists version p f,
    d' = dict_set languages lang (capability_record config version p f) /\
    keys p = PATTERNS /\ keys f = FEATURES.
Proof.
  unfold test_language, bind, observe, ret.
  destruct (clone_or_pull _ _ _ _ os) as [cloned os1|e os1|os1]; try discriminate.
  destruct (negb cloned && negb (path_exists os1 _)).
  - intros [= <- <-]. exists JNull, (zero PATTERNS), (zero FEATURES).
    repeat split; apply keys_zero.
  - destruct (get_version _ _ _ os1) as [version os2|e os2|os2]; try discriminate.
    match goal with
    | |- match ?w os2 with _ => _ end = _ -> _ =>
        destruct (w os2) as [cmd os3|e os3|os3]; try discriminate
    end.
    destruct (probe_capabilities_on_os cmd (repos_dir ++ "/vgi-rpc-" ++ lang) os3)
      as (p & f & os4 & Hp & Kp & Kf & _).
    rewrite Hp. intros [= <- <-]. now exists (json_of_option version), p, f.
Qed.

Lemma dict_get_in_keys (d : dict) (k : string) (v : json) :
  dict_get d k = Some v -> In k (keys d).
Proof.
  induction d as [|[k' v'] d IH]; simpl; [discriminate|].
  destruct (String.eqb_spec k' k); [now left | right; now apply IH].
Qed.

(** The loop: when every turn that ends has written one entry under its own
    name, the loop that ends has written one entry per name, in order. *)
Lemma for_each_entries (A : Type) (name : A -> string) (Q : A -> json -> Prop)
    (body : A -> dict -> prog OS dict) (xs : list A) :
  (forall x, In x xs -> forall d os d' os',
      body x d os = Done d' os' -> exists v, d' = dict_set d (name x) v /\ Q x v) ->
  NoDup (map name xs) ->
  forall acc os acc' os',
    for_each xs body acc os = Done acc' os' ->
    (forall x, In x xs -> ~ In (name x) (keys acc)) ->
    keys acc' = keys acc ++ map name xs /\
    (forall x, In x xs -> exists v, dict_get acc' (name x) = Some v /\ Q x v) /\
    (forall k, ~ In k (map name xs) -> dict_get acc' k = dict_get acc k).
Proof.
  induction xs as [|x xs IH]; intros Hbody Hnd acc os acc' os' Hrun Hfresh.
  - injection Hrun as <- _. simpl. rewrite app_nil_r. repeat split; tauto.
  - simpl in Hrun. unfold bind in Hrun.
    destruct (body x acc os) as [d1 os1|e os1|os1] eqn:Hx; try discriminate.
    destruct (Hbody x (or_introl eq_refl) _ _ _ _ Hx) as (v & -> & Hv).
    inversion Hnd as [|? ? Hnotin Hnd']; subst.
    assert (Hk1 : keys (dict_set acc (name x) v) = keys acc ++ [name x])
      by (apply keys_set_absent, Hfresh; now left).
    destruct (IH (fun y Hy => Hbody y (or_intror Hy)) Hnd' _ _ _ _ Hrun)
      as (Hkeys & Hall & Hother).
    { intros y Hy. rewrite Hk1. intros Hin. apply in_app_or in Hin as [Hin|[Hin|[]]].
      - now apply (Hfresh y (or_intror Hy)).
      - apply Hnotin. rewrite Hin. now apply in_map. }
    split; [|split].
    + rewrite Hkeys, Hk1, <- app_assoc. reflexivity.
    + intros y [<-|Hy]; [|now apply Hall].
      exists v. split; [|assumption].
      rewrite Hother by assumption. apply dict_get_set_same.
    + intros k Hk. simpl in Hk.
      rewrite Hother by tauto. apply dict_get_set_other. tauto.
Qed.

(** The snapshot, when there is one: the languages in the order of the
    configuration, each with its record. *)
Lemma snapshot_records (Q : string * lang_config -> json -> Prop)
    (languages : list (string * lang_config)) (repos_dir : string)
    (os os' : OS) (snap : json) :
  (forall x, In x languages -> forall d os d' os',
      test_language path_exists spawn probe_session repos_dir x d os = Done d' os' ->
      exists v, d' = dict_set d (fst x) v /\ Q x v) ->
  NoDup (map fst languages) ->
  test_capabilities_of path_exists spawn probe_session utcnow_isoformat
    languages repos_dir os = Done snap os' ->
  exists langs,
    snap = JObj [("generated_at", JStr (utcnow_isoformat os)); ("languages", JObj langs)] /\
    keys langs = map fst languages /\
    forall x, In x languages -> exists v, dict_get langs (fst x) = Some v /\ Q x v.
Proof.
  intros Hbody Hnd. unfold test_capabilities_of, bind, observe, ret.
  destruct (for_each _ _ _ os) as [langs os1|e os1|os1] eqn:Hloop; try discriminate.
  intros [= <- <-].
  destruct (@for_each_entries _ fst Q _ _ Hbody Hnd _ _ _ _ Hloop)
    as (Hkeys & Hall & _); [intros x _ []|].
  exists langs. auto.
Qed.

Lemma LANGUAGES_names : map fst LANGUAGES = ["python"; "typescript"; "go"; "cpp"].
Proof. reflexivity. Qed.

Lemma LANGUAGES_NoDup : NoDup (map fst LANGUAGES).
Proof.
  rewrite LANGUAGES_names.
  repeat (constructor; [simpl; intuition discriminate|]). constructor.
Qed.

Lemma clone_or_pull_returns (repo_url target_dir : string) (os : OS) :
  children_behave spawn ->
  exists b os', clone_or_pull path_exists spawn repo_url target_dir os = Done b os'.
Proof.
  intros [Hgit _]. unfold clone_or_pull, bind, observe, ret.
  destruct (path_exists os target_dir).
  - destruct (Hgit ["pull"; "--ff-only"] (Some target_dir) os) as (r & os' & ->).
    now do 2 eexists.
  - destruct (Hgit ["clone"; "--depth=1"; repo_url; target_dir] None os)
      as (r & os' & ->).
    now do 2 eexists.
Qed.

Lemma get_version_returns (config : lang_config) (repo_dir : string) (os : OS) :
  children_behave spawn ->
  exists v os', get_version spawn config repo_dir os = Done v os'.
Proof.
  intros [_ Hother]. unfold get_version.
  destruct (version_cmd config) as [[|c cmd]|]; try (now do 2 eexists).
  unfold try_except_of, try_except, bind, with_timeout, ret, throw.
  destruct (spawn (c :: cmd) (Some repo_dir) os) as [r os1|e os1|os1] eqn:Hs.
  - destruct (returncode r =? 0)%Z; now do 2 eexists.
  - apply Hother in Hs. cbn [existsb]. rewrite orb_false_r, Hs. now do 2 eexists.
  - now do 2 eexists.
Qed.

Lemma build_worker_returns (config : lang_config) (repo_dir : string) (os : OS) :
  children_behave spawn ->
  exists b os', build_worker spawn config repo_dir os = Done b os'.
Proof.
  intros [_ Hother]. unfold build_worker.
  destruct (build_cmd config) as [[|c cmd]|]; try (now do 2 eexists).
  unfold try_except_of, try_except, bind, with_timeout, ret, throw.
  destruct (spawn (c :: cmd) (Some repo_dir) os) as [r os1|e os1|os1] eqn:Hs.
  - now do 2 eexists.
  - apply Hother in Hs. cbn [existsb]. rewrite orb_false_r, Hs. now do 2 eexists.
  - now do 2 eexists.
Qed.

Lemma test_language_returns (repos_dir : string) (x : string * lang_config)
    (languages : dict) (os : OS) :
  children_behave spawn ->
  exists d' os',
    test_language path_exists spawn probe_session repos_dir x languages os
    = Done d' os'.
Proof.
  intros H. destruct x as [lang config]. unfold test_language, bind, observe, ret.
  destruct (clone_or_pull_returns (repo config) (repos_dir ++ "/vgi-rpc-" ++ lang) os H)
    as (cloned & os1 & ->).
  destruct (negb cloned && negb (path_exists os1 _)); [now do 2 eexists|].
  destruct (get_version_returns config (repos_dir ++ "/vgi-rpc-" ++ lang) os1 H)
    as (version & os2 & ->).
  destruct (negb (falsy (build_cmd config))).
  - destruct (build_worker_returns config (repos_dir ++ "/vgi-rpc-" ++ lang) os2 H)
      as (built & os3 & ->).
    destruct (probe_capabilities_on_os (if built then worker_cmd config else None)
                (repos_dir ++ "/vgi-rpc-" ++ lang) os3) as (p & f & os4 & -> & _).
    now do 2 eexists.
  - destruct (probe_capabilities_on_os (worker_cmd config)
                (repos_dir ++ "/vgi-rpc-" ++ lang) os2) as (p & f & os4 & -> & _).
    now do 2 eexists.
Qed.

Lemma for_each_returns (A : Type) (body : A -> dict -> prog OS dict) (xs : list A) :
  (forall x d os, exists d' os', body x d os = Done d' os') ->
  forall acc os, exists acc' os', for_each xs body acc os = Done acc' os'.
Proof.
  intros Hbody. induction xs as [|x xs IH]; intros acc os; simpl.
  - now do 2 eexists.
  - unfold bind. destruct (Hbody x acc os) as (d' & os' & ->). apply IH.
Qed.

Lemma test_language_writes (repos_dir : string) (x : string * lang_config)
    (d d' : dict) (os os' : OS) :
  test_language path_exists spawn probe_session repos_dir x d os = Done d' os' ->
  exists v, d' = dict_set d (fst x) v /\ written x v.
Proof.
  destruct x as [lang config]. intros H.
  apply test_language_done in H as (version & p & f & -> & Kp & Kf).
  eexists. split; [reflexivity|]. now exists version, p, f.
Qed.

(** C8: a snapshot, whenever one is returned, lists the four configured
    languages, in order, each with a record of exactly the seven fields
    [version], [repo], [docs], [package_url], [transports], [patterns] and
    [features]; and one is returned whenever git finishes (with any exit
    status) and the other child processes finish, hang or fail to start,
    whatever cloning, building and probing came to. *)
Theorem snapshot_has_every_language (repos_dir : string) (os : OS) :
  (forall snap os',
      test_all_capabilities path_exists spawn probe_session utcnow_isoformat
        repos_dir os = Done snap os' ->
      exists langs,
        snap = JObj [("generated_at", JStr (utcnow_isoformat os));
                     ("languages", JObj langs)] /\
        keys langs = ["python"; "typescript"; "go"; "cpp"] /\
        forall lang rec,
          dict_get langs lang = Some rec ->
          exists fields,
            rec = JObj fields /\
            keys fields = ["version"; "repo"; "docs"; "package_url";
                           "transports"; "patterns"; "features"]) /\
  (children_behave spawn ->
   exists snap os',
     test_all_capabilities path_exists spawn probe_session utcnow_isoformat
       repos_dir os = Done snap os').
Proof.
  split.
  - intros snap os' Hrun.
    destruct (@snapshot_records written LANGUAGES repos_dir _ _ _
                (fun x _ d os1 d' os1' => @test_language_writes repos_dir x d d' os1 os1')
                LANGUAGES_NoDup Hrun) as (langs & -> & Hkeys & Hall).
    exists langs. split; [reflexivity|]. split; [exact Hkeys|].
    intros lang rec Hget.
    pose proof (dict_get_in_keys _ _ Hget) as Hin.
    rewrite Hkeys in Hin. apply in_map_iff in Hin as (x & <- & Hx).
    destruct (Hall x Hx) as (v & Hv & version & p & f & -> & _).
    rewrite Hv in Hget. injection Hget as <-.
    eexists. split; reflexivity.
  - intros Hbehave.
    unfold test_all_capabilities, test_capabilities_of, bind, observe, ret.
    destruct (for_each_returns (test_language path_exists spawn probe_session repos_dir)
                LANGUAGES
                (fun x d os1 => test_language_returns repos_dir x d os1 Hbehave) [] os)
      as (langs & os' & ->).
    now do 2 eexists.
Qed.

(** C10: in every snapshot returned, the [transports] of each language are
    the [known_transports] of its configuration, whatever cloning, building,
    the version command and probing came to. *)
Theorem transports_are_the_configured_ones (repos_dir : string) (os os' : OS)
    (snap : json) :
  test_all_capabilities path_exists spawn probe_session utcnow_isoformat
    repos_dir os = Done snap os' ->
  exists langs,
    snap = JObj [("generated_at", JStr (utcnow_isoformat os));
                 ("languages", JObj langs)] /\
    forall lang config,
      In (lang, config) LANGUAGES ->
      exists fields,
        dict_get langs lang = Some (JObj fields) /\
        dict_get fields "transports" = Some (JObj (known_transports config)).
Proof.
  intros Hrun.
  destruct (@snapshot_records written LANGUAGES repos_dir _ _ _
              (fun x _ d os1 d' os1' => @test_language_writes repos_dir x d d' os1 os1')
              LANGUAGES_NoDup Hrun) as (langs & -> & _ & Hall).
  exists langs. split; [reflexivity|].
  intros lang config Hin.
  destruct (Hall _ Hin) as (v & Hv & version & p & f & -> & _).
  eexists. split; [exact Hv | reflexivity].
Qed.

Lemma LANGUAGES_run_their_worker_executable (lang : string) (config : lang_config)
    (exe : string) (args : list string) :
  In (lang, config) LANGUAGES -> worker_cmd config = Some (exe :: args) ->
  runs_only config exe.
Proof.
  intros Hin Hw. simpl in Hin.
  destruct Hin as [ [= <- <-] | [ [= <- <-] | [ [= <- <-] | [ [= <- <-] | [] ] ] ] ];
    simpl in Hw; try discriminate; injection Hw as <- <-; split; simpl; eauto.
Qed.

Lemma test_language_not_installed (repos_dir lang : string) (config : lang_config)
    (exe : string) (d d' : dict) (os os' : OS) :
  runs_only config exe -> not_installed spawn exe ->
  test_language path_exists spawn probe_session repos_dir (lang, config) d os
  = Done d' os' ->
  d' = dict_set d lang
         (capability_record config JNull (zero PATTERNS) (zero FEATURES)).
Proof.
  intros [Hv [bargs Hb]] Hmissing.
  unfold test_language, bind, observe, ret.
  destruct (clone_or_pull _ _ _ _ os) as [cloned os1|e os1|os1]; try discriminate.
  destruct (negb cloned && negb (path_exists os1 _)); [now intros [= <- <-]|].
  assert (Hversion : exists os2,
             get_version spawn config (repos_dir ++ "/vgi-rpc-" ++ lang) os1
             = Done None os2).
  { unfold get_version. destruct Hv as [->|[vargs ->]]; [now eexists|].
    unfold try_except_of, try_except, bind, with_timeout.
    destruct (Hmissing vargs (Some (repos_dir ++ "/vgi-rpc-" ++ lang)%string) os1)
      as (msg & os2 & ->).
    now eexists. }
  destruct Hversion as (os2 & ->).
  rewrite Hb. unfold build_worker. rewrite Hb.
  unfold try_except_of, try_except, bind, with_timeout.
  cbn [falsy negb]. cbv beta.
  destruct (Hmissing bargs (Some (repos_dir ++ "/vgi-rpc-" ++ lang)%string) os2)
    as (msg & os3 & ->).
  simpl. now intros [= <- <-].
Qed.

(** C7: when the executable of a configured worker command is not on the
    machine, the record written for that language has a null version and
    every pattern and feature at [False]. *)
Theorem missing_executable_zero_record (repos_dir : string) (os os' : OS)
    (snap : json) (lang : string) (config : lang_config) (exe : string)
    (args : list string) :
  In (lang, config) LANGUAGES ->
  worker_cmd config = Some (exe :: args) ->
  not_installed spawn exe ->
  test_all_capabilities path_exists spawn probe_session utcnow_isoformat
    repos_dir os = Done snap os' ->
  exists langs,
    snap = JObj [("generated_at", JStr (utcnow_isoformat os));
                 ("languages", JObj langs)] /\
    dict_get langs lang
    = Some (capability_record config JNull (zero PATTERNS) (zero FEATURES)).
Proof.
  intros Hin Hw Hmissing Hrun.
  set (Q := fun (x : string * lang_config) (v : json) =>
              forall exe args, worker_cmd (snd x) = Some (exe :: args) ->
                not_installed spawn exe ->
                v = capability_record (snd x) JNull (zero PATTERNS) (zero FEATURES)).
  assert (Hbody : forall x, In x LANGUAGES -> forall d os1 d' os1',
             test_language path_exists spawn probe_session repos_dir x d os1
             = Done d' os1' ->
             exists v, d' = dict_set d (fst x) v /\ Q x v).
  { intros [l c] Hx d os1 d' os1' Hturn.
    pose proof Hturn as Hv. apply test_language_writes in Hv as (v & Hv & _).
    exists v. split; [exact Hv|].
    intros exe' args' Hw' Hm'. simpl in Hw'.
    assert (Hruns : runs_only c exe')
      by (eapply LANGUAGES_run_their_worker_executable; eassumption).
    eapply test_language_not_installed in Hturn; [|eassumption..].
    assert (Hsame : dict_get d' l = dict_get d' l) by reflexivity.
    rewrite Hv in Hsame at 1. rewrite Hturn in Hsame.
    simpl fst in Hsame. rewrite !dict_get_set_same in Hsame. now injection Hsame. }
  destruct (@snapshot_records Q LANGUAGES repos_dir _ _ _ Hbody LANGUAGES_NoDup Hrun)
    as (langs & -> & _ & Hall).
  exists langs. split; [reflexivity|].
  destruct (Hall _ Hin) as (v & Hv & Hq).
  simpl fst in Hv. rewrite Hv. f_equal. exact (Hq exe args Hw Hmissing).
Qed.

End OrchestrationProperties.

(** ** The theorems at work on sample machines *)

Lemma spawn_offline_behaves : children_behave spawn_offline.
Proof.
  split.
  - intros args cwd os. now do 2 eexists.
  - intros cmd cwd os e os'. unfold spawn_offline.
    repeat match goal with
           | |- context [match ?x with _ => _ end] => destruct x
           end;
      intros [= <- _]; reflexivity.
Qed.

(** C8 at work: offline and without a checkout, every clone fails and the
    snapshot still lists the four languages. *)
Lemma snapshot_has_every_language_witness :
  exists snap langs,
    test_all_capabilities nothing_exists spawn_offline conforming_sessions fixed_clock
      "repos" tt = Done snap tt /\
    snap = JObj [("generated_at", JStr "2026-01-01T00:00:00+00:00");
                 ("languages", JObj langs)] /\
    keys langs = ["python"; "typescript"; "go"; "cpp"].
Proof.
  destruct (snapshot_has_every_language nothing_exists spawn_offline
              conforming_sessions fixed_clock "repos" tt) as [Hshape Hreturns].
  destruct (Hreturns spawn_offline_behaves) as (snap & [] & Hrun).
  destruct (Hshape snap tt Hrun) as (langs & Hsnap & Hkeys & _).
  now exists snap, langs.
Defined.

(** C10 at work: on a machine where everything succeeds. *)
Lemma transports_are_the_configured_ones_witness :
  exists langs fields,
    test_all_capabilities nothing_exists spawn_all_fine conforming_sessions fixed_clock
      "repos" tt = Done snapshot_all_fine tt /\
    snapshot_all_fine = JObj [("generated_at", JStr "2026-01-01T00:00:00+00:00");
                              ("languages", JObj langs)] /\
    dict_get langs "typescript" = Some (JObj fields) /\
    dict_get fields "transports"
    = Some (JObj (transports false true false false false false)).
Proof.
  assert (Hrun : test_all_capabilities nothing_exists spawn_all_fine
                   conforming_sessions fixed_clock "repos" tt
                 = Done snapshot_all_fine tt)
    by (vm_compute; reflexivity).
  destruct (@transports_are_the_configured_ones unit nothing_exists spawn_all_fine
              conforming_sessions fixed_clock "repos" tt tt snapshot_all_fine Hrun)
    as (langs & Hsnap & Hall).
  destruct (Hall "typescript" (config_of "typescript")) as (fields & Hget & Htr);
    [right; left; reflexivity|].
  exists langs, fields. repeat split; assumption.
Defined.

(** C7 at work: git is there and the go tool chain is not. *)
Lemma missing_executable_zero_record_witness :
  exists langs,
    In ("go", go_config) LANGUAGES /\
    worker_cmd go_config = Some ["go"; "run"; "./cmd/conformance-worker"] /\
    not_installed spawn_only_git "go" /\
    test_all_capabilities nothing_exists spawn_only_git conforming_sessions fixed_clock
      "repos" tt = Done snapshot_only_git tt /\
    snapshot_only_git = JObj [("generated_at", JStr "2026-01-01T00:00:00+00:00");
                              ("languages", JObj langs)] /\
    dict_get langs "go"
    = Some (capability_record go_config JNull (zero PATTERNS) (zero FEATURES)).
Proof.
  assert (Hrun : test_all_capabilities nothing_exists spawn_only_git
                   conforming_sessions fixed_clock "repos" tt
                 = Done snapshot_only_git tt)
    by (vm_compute; reflexivity).
  assert (Hmissing : not_installed spawn_only_git "go")
    by (intros args cwd os; now do 2 eexists).
  assert (Hin : In ("go", go_config) LANGUAGES)
    by (right; right; left; reflexivity).
  assert (Hw : worker_cmd go_config = Some ["go"; "run"; "./cmd/conformance-worker"])
    by reflexivity.
  destruct (@missing_executable_zero_record unit nothing_exists spawn_only_git
              conforming_sessions fixed_clock "repos" tt tt snapshot_only_git
              "go" go_config "go" ["run"; "./cmd/conformance-worker"]
              Hin Hw Hmissing Hrun)
    as (langs & Hsnap & Hget).
  exists langs. repeat split; assumption.
Defined.

(** * Further properties of the code *)

(** ** [strip] *)





Section MoreOrchestration.

Variable OS : Type.
Variable path_exists : OS -> string -> bool.
Variable spawn : list string -> option string -> prog OS (completed string).
Variable probe_session : list string -> string -> OS -> session * OS.
Variable utcnow_isoformat : OS -> string.


(** X3: [build_worker] answers [True] exactly when there is a build command
    and it ran to its end with exit status 0. *)
Theorem build_worker_true_iff (config : lang_config) (repo_dir : string)
    (os os' : OS) :
  build_worker spawn config repo_dir os = Done true os' <->
  exists c cmd result,
    build_cmd config = Some (c :: cmd) /\
    spawn (c :: cmd) (Some repo_dir) os = Done result os' /\
    returncode result = 0%Z.
Proof.
  unfold build_worker. split.
  - destruct (build_cmd config) as [[|c cmd]|]; try discriminate.
    unfold try_except_of, try_except, bind, with_timeout, ret, throw.
    destruct (spawn (c :: cmd) (Some repo_dir) os) as [r os1|e os1|os1] eqn:Hs.
    + intros [= Hrc <-]. apply Z.eqb_eq in Hrc. now exists c, cmd, r.
    + destruct (existsb _ _); discriminate.
    + discriminate.
  - intros (c & cmd & r & -> & Hs & Hrc).
    unfold try_except_of, try_except, bind, with_timeout, ret.
    rewrite Hs, Hrc. reflexivity.
Qed.

(** X4: When launching git raises, the exception leaves [test_all_capabilities]:
    no snapshot is returned. *)
Theorem git_failure_aborts (repos_dir : string) (os : OS) (e : exn) :
  (forall args cwd os1, exists os2, spawn ("git" :: args) cwd os1 = Fault e os2) ->
  exists os',
    test_all_capabilities path_exists spawn probe_session utcnow_isoformat
      repos_dir os = Fault e os'.
Proof.
  intros Hgit.
  unfold test_all_capabilities, test_capabilities_of, LANGUAGES, bind, observe.
  cbn [for_each]. unfold bind at 1. unfold test_language at 1.
  unfold bind at 1. unfold clone_or_pull, bind, observe.
  destruct (path_exists os _);
    match goal with
    | |- context [spawn ("git" :: ?args) ?cwd os] =>
        destruct (Hgit args cwd os) as [os2 ->]
    end;
    now exists os2.
Qed.

Lemma build_worker_true_inv (config : lang_config) (repo_dir : string) (os os' : OS) :
  build_worker spawn config repo_dir os = Done true os' ->
  exists cmd result,
    build_cmd config = Some cmd /\
    spawn cmd (Some repo_dir) os = Done result os' /\ returncode result = 0%Z.
Proof.
  unfold build_worker.
  destruct (build_cmd config) as [[|c cmd]|]; try discriminate.
  unfold try_except_of, try_except, bind, with_timeout, ret, throw.
  destruct (spawn (c :: cmd) (Some repo_dir) os) as [r os1|e os1|os1] eqn:Hs.
  - intros [= Hrc <-]. apply Z.eqb_eq in Hrc. now exists (c :: cmd), r.
  - destruct (existsb _ _); discriminate.
  - discriminate.
Qed.

Lemma probe_capabilities_without_command (cmd : option (list string))
    (repo_dir : string) (os : OS) :
  falsy cmd = true ->
  probe_capabilities (python_c_on_os probe_session) cmd repo_dir os
  = Done (zero PATTERNS, zero FEATURES) os.
Proof. destruct cmd as [[|c cmd]|]; [reflexivity | discriminate | reflexivity]. Qed.

(** X6: A language is not probed when it has no worker command, or when it has
    a build command that does not exit with status 0: its record has every
    pattern and feature at [False], next to the version found. *)
Theorem unbuilt_is_not_probed (repos_dir lang : string) (config : lang_config)
    (d d' : dict) (os os' : OS) :
  falsy (worker_cmd config) = true \/
  (falsy (build_cmd config) = false /\
   forall cmd cwd os1 result os2,
     build_cmd config = Some cmd -> spawn cmd cwd os1 = Done result os2 ->
     returncode result <> 0%Z) ->
  test_language path_exists spawn probe_session repos_dir (lang, config) d os
  = Done d' os' ->
  exists version,
    d' = dict_set d lang
           (capability_record config (json_of_option version)
              (zero PATTERNS) (zero FEATURES)).
Proof.
  intros Hwhy. unfold test_language, bind, observe, ret.
  destruct (clone_or_pull _ _ _ _ os) as [cloned os1|e os1|os1]; try discriminate.
  destruct (negb cloned && negb (path_exists os1 _)).
  { intros [= <- <-]. now exists None. }
  destruct (get_version _ _ _ os1) as [version os2|e os2|os2]; try discriminate.
  assert (Hcmd : forall cmd os3,
             (if negb (falsy (build_cmd config))
              then fun s =>
                     match build_worker spawn config
                             (repos_dir ++ "/vgi-rpc-" ++ lang) s with
                     | Done a s' => Done (if a then worker_cmd config else None) s'
                     | Fault e s' => Fault e s'
                     | Stuck s' => Stuck s'
                     end
              else fun s => Done (worker_cmd config) s) os2 = Done cmd os3 ->
             falsy cmd = true).
  { intros cmd os3. destruct Hwhy as [Hw|[Hb Hnever]].
    - destruct (negb (falsy (build_cmd config))).
      + destruct (build_worker _ _ _ os2) as [[|] os4|e os4|os4];
          intros [= <- _]; [assumption | reflexivity].
      + now intros [= <- _].
    - rewrite Hb. cbn [negb].
      destruct (build_worker _ _ _ os2) as [[|] os4|e os4|os4] eqn:Hbuild;
        try discriminate; intros [= <- _]; [|reflexivity].
      apply build_worker_true_inv in Hbuild as (c & r & Hc & Hs & Hrc).
      now destruct (Hnever _ _ _ _ _ Hc Hs). }
  match goal with
  | |- match ?w os2 with _ => _ end = _ -> _ =>
      destruct (w os2) as [cmd os3|e os3|os3] eqn:Hw; try discriminate
  end.
  rewrite (probe_capabilities_without_command _ _ _ (Hcmd _ _ Hw)).
  intros [= <- <-]. now exists version.
Qed.

(** X5: A first clone that fails is skipped: when the checkout does not exist
    and git exits with an error without creating it, the record has a null
    version and every pattern and feature at [False], and the machine is
    left as git left it: no version, build or probe command has run. *)
Theorem failed_clone_is_skipped (repos_dir lang : string) (config : lang_config)
    (d : dict) (os os1 : OS) (result : completed string) :
  path_exists os (repos_dir ++ "/vgi-rpc-" ++ lang) = false ->
  spawn ["git"; "clone"; "--depth=1"; repo config;
         (repos_dir ++ "/vgi-rpc-" ++ lang)%string] None os = Done result os1 ->
  returncode result <> 0%Z ->
  path_exists os1 (repos_dir ++ "/vgi-rpc-" ++ lang) = false ->
  test_language path_exists spawn probe_session repos_dir (lang, config) d os
  = Done (dict_set d lang
            (capability_record config JNull (zero PATTERNS) (zero FEATURES))) os1.
Proof.
  intros Hno Hclone Hrc Hstill.
  unfold test_language, bind, observe, ret, clone_or_pull, bind, observe, ret.
  rewrite Hno, Hclone.
  apply Z.eqb_neq in Hrc. rewrite Hrc, Hstill. reflexivity.
Qed.

Ltac handled_or_raised :=
  match goal with
  | |- context [if ?b then _ else _] =>
      destruct b; [now intros [= <- <-] | discriminate]
  end.

(** What holds of every result of [probe] holds of what
    [probe_capabilities] returns on the machine. *)
Lemma probe_capabilities_on_os_has (P : dict -> dict -> Prop)
    (cmd : option (list string)) (repo_dir : string) (os : OS) :
  (forall cmd env p f, probe cmd repo_dir env = Done (p, f) tt -> P p f) ->
  exists p f os',
    probe_capabilities (python_c_on_os probe_session) cmd repo_dir os
    = Done (p, f) os' /\ P p f.
Proof.
  intros HP.
  destruct cmd as [[|c cmd]|];
    try (exists (zero PATTERNS), (zero FEATURES), os; split; [reflexivity|];
         apply (HP None (session_with conforming_worker)); reflexivity).
  destruct (probe_session (c :: cmd) repo_dir os) as [env os'] eqn:Hs.
  destruct (probe_total (Some (c :: cmd)) repo_dir env) as (p & f & Hp & _).
  exists p, f, os'. split; [|now apply (HP (Some (c :: cmd)) env)].
  revert Hp.
  unfold probe, probe_capabilities, try_except_of, try_except, bind, with_timeout,
    python_c_on_os, effect.
  rewrite Hs.
  destruct (python_c_probe_script env) as [[rc out]|e|]; simpl.
  - destruct (rc =? 0)%Z; [|now intros [= <- <-]].
    unfold lift.
    destruct (json_loads out) as [data|e]; simpl; [|handled_or_raised].
    destruct (json_get data "patterns" (JObj [])) as [dp|e]; simpl; [|handled_or_raised].
    destruct (update _ dp) as [p'|e]; simpl; [|handled_or_raised].
    destruct (json_get data "features" (JObj [])) as [df|e]; simpl; [|handled_or_raised].
    destruct (update _ df) as [f'|e]; simpl; [|handled_or_raised].
    now intros [= <- <-].
  - handled_or_raised.
  - now intros [= <- <-].
Qed.

Lemma test_language_has (P : dict -> dict -> Prop) (repos_dir lang : string)
    (config : lang_config) (d d' : dict) (os os' : OS) :
  (forall cmd env p f,
      probe cmd (repos_dir ++ "/vgi-rpc-" ++ lang) env = Done (p, f) tt -> P p f) ->
  test_language path_exists spawn probe_session repos_dir (lang, config) d os
  = Done d' os' ->
  exists version p f,
    d' = dict_set d lang (capability_record config version p f) /\ P p f.
Proof.
  intros HP. unfold test_language, bind, observe, ret.
  destruct (clone_or_pull _ _ _ _ os) as [cloned os1|e os1|os1]; try discriminate.
  destruct (negb cloned && negb (path_exists os1 _)).
  - intros [= <- <-]. exists JNull, (zero PATTERNS), (zero FEATURES).
    split; [reflexivity|].
    apply (HP None (session_with conforming_worker)). reflexivity.
  - destruct (get_version _ _ _ os1) as [version os2|e os2|os2]; try discriminate.
    match goal with
    | |- match ?w os2 with _ => _ end = _ -> _ =>
        destruct (w os2) as [cmd os3|e os3|os3]; try discriminate
    end.
    destruct (probe_capabilities_on_os_has P cmd
                (repos_dir ++ "/vgi-rpc-" ++ lang) os3 HP)
      as (p & f & os4 & Hp & HPpf).
    rewrite Hp. intros [= <- <-]. now exists (json_of_option version), p, f.
Qed.

End MoreOrchestration.

(** ** [probe_capabilities] on any child process *)

Lemma keys_update_grows (other d : dict) :
  exists extra,
    keys (dict_update d other) = keys d ++ extra /\
    forall k, In k extra -> In k (keys other) /\ ~ In k (keys d).
Proof.
  unfold dict_update. revert d.
  induction other as [|[k v] other IH]; intros d; simpl.
  - exists []. rewrite app_nil_r. split; [reflexivity | intros k []].
  - destruct (IH (dict_set d k v)) as (extra & Hkeys & Hextra).
    destruct (in_dec string_dec k (keys d)) as [Hin|Hnot].
    + rewrite keys_set_present in Hkeys, Hextra by assumption.
      exists extra. split; [exact Hkeys|].
      intros k' Hk'. destruct (Hextra k' Hk'). auto.
    + rewrite keys_set_absent in Hkeys, Hextra by assumption.
      exists (k :: extra). split; [now rewrite Hkeys, <- app_assoc|].
      intros k' [<-|Hk']; [auto|].
      destruct (Hextra k' Hk') as [H1 H2]. split; [auto|].
      intros H. apply H2, in_or_app. now left.
Qed.

Lemma update_keys_grow (d d' : dict) (other : json) :
  update d other = Ok d' -> exists extra, keys d' = keys d ++ extra.
Proof.
  destruct other as [| | |[|a s]|members]; simpl; try discriminate.
  - intros [= <-]. exists []. now rewrite app_nil_r.
  - intros [= <-]. destruct (keys_update_grows members d) as (extra & H & _).
    now exists extra.
Qed.

Lemma dict_get_update (other d : dict) (k : string) :
  NoDup (keys other) ->
  dict_get (dict_update d other) k
  = match dict_get other k with
    | Some v => Some v
    | None => dict_get d k
    end.
Proof.
  unfold dict_update. revert d.
  induction other as [|[k0 v0] other IH]; intros d Hnd; simpl; [reflexivity|].
  inversion Hnd as [|? ? Hnotin Hnd']; subst.
  rewrite IH by assumption.
  destruct (String.eqb_spec k0 k) as [->|Hne].
  - rewrite (dict_get_absent other k Hnotin). apply dict_get_set_same.
  - destruct (dict_get other k); [reflexivity|]. now apply dict_get_set_other.
Qed.

Ltac zero_or_raised H :=
  match goal with
  | |- context [if ?b then _ else _] =>
      destruct b; [intros [= <- <- _]; exact H | discriminate]
  end.

Section AnyChild.

Variable M : Type.
Variable python_c : list string -> string -> prog M (completed (option json)).

(** X7: Whatever the child process prints, the dictionaries that
    [probe_capabilities] returns begin with the keys of the catalog, in
    catalog order; keys that only the child names come after them. *)
Theorem catalog_keys_come_first (cmd : option (list string)) (repo_dir : string)
    (m m' : M) (p f : dict) :
  probe_capabilities python_c cmd repo_dir m = Done (p, f) m' ->
  (exists extra, keys p = PATTERNS ++ extra) /\
  (exists extra, keys f = FEATURES ++ extra).
Proof.
  assert (Hzero : (exists extra, keys (zero PATTERNS) = PATTERNS ++ extra) /\
                  (exists extra, keys (zero FEATURES) = FEATURES ++ extra))
    by (split; exists []; reflexivity).
  unfold probe_capabilities.
  destruct cmd as [[|c cmd]|]; try (intros [= <- <- _]; exact Hzero).
  unfold try_except_of, try_except, bind, with_timeout, ret, throw, lift.
  destruct (python_c (c :: cmd) repo_dir m) as [[rc out]|e m1|m1]; simpl.
  - destruct (rc =? 0)%Z; [|intros [= <- <- _]; exact Hzero].
    destruct (json_loads out) as [data|e]; simpl;
      [|zero_or_raised Hzero].
    destruct (json_get data "patterns" (JObj [])) as [dp|e]; simpl;
      [|zero_or_raised Hzero].
    match goal with
    | |- context [update ?d dp] => destruct (update d dp) as [p'|e] eqn:Hp
    end; simpl; [|zero_or_raised Hzero].
    destruct (json_get data "features" (JObj [])) as [df|e]; simpl;
      [|zero_or_raised Hzero].
    match goal with
    | |- context [update ?d df] => destruct (update d df) as [f'|e] eqn:Hf
    end; simpl; [|zero_or_raised Hzero].
    intros [= <- <- _].
    apply update_keys_grow in Hp as [xp Hp], Hf as [xf Hf].
    split; [exists xp; exact Hp | exists xf; exact Hf].
  - zero_or_raised Hzero.
  - intros [= <- <- _]. exact Hzero.
Qed.

(** X8: When the child exits with status 0 and prints an object whose
    [patterns] and [features] members (an empty object when missing) are
    objects, each returned dictionary holds, under every key, the value the
    child printed for it, and otherwise what the all-false dictionary
    holds. *)
Theorem printed_values_override_defaults (c : string) (cmd : list string)
    (repo_dir : string) (m m' : M) (data : json) (pm fm : dict) :
  python_c (c :: cmd) repo_dir m = Done (CompletedProcess 0%Z (Some data)) m' ->
  json_get data "patterns" (JObj []) = Ok (JObj pm) ->
  json_get data "features" (JObj []) = Ok (JObj fm) ->
  NoDup (keys pm) -> NoDup (keys fm) ->
  exists p f,
    probe_capabilities python_c (Some (c :: cmd)) repo_dir m = Done (p, f) m' /\
    (forall k, dict_get p k = match dict_get pm k with
                              | Some v => Some v
                              | None => dict_get (zero PATTERNS) k
                              end) /\
    (forall k, dict_get f k = match dict_get fm k with
                              | Some v => Some v
                              | None => dict_get (zero FEATURES) k
                              end).
Proof.
  intros Hrun Hp Hf Hnp Hnf.
  exists (dict_update (zero PATTERNS) pm), (dict_update (zero FEATURES) fm).
  split; [|split; intros k; now apply dict_get_update].
  unfold probe_capabilities, try_except_of, try_except, bind, with_timeout, lift.
  rewrite Hrun. cbn [returncode stdout Z.eqb json_loads].
  rewrite Hp. cbn [update]. rewrite Hf. reflexivity.
Qed.

(** X9: A child that hangs, raises [TimeoutExpired], [JSONDecodeError] or
    [FileNotFoundError], exits with a status other than 0 (whatever it
    printed), or prints text that is no document: the dictionaries are
    returned all [False], and nothing is raised. *)
Theorem unusable_child_gives_all_false (c : string) (cmd : list string)
    (repo_dir : string) (m : M) :
  unusable (python_c (c :: cmd) repo_dir m) ->
  probe_capabilities python_c (Some (c :: cmd)) repo_dir m
  = Done (zero PATTERNS, zero FEATURES) (final_state (python_c (c :: cmd) repo_dir m)).
Proof.
  unfold unusable, probe_capabilities, try_except_of, try_except, bind,
    with_timeout, lift.
  destruct (python_c (c :: cmd) repo_dir m) as [[rc out]|e m1|m1]; simpl.
  - intros [Hrc| ->].
    + apply Z.eqb_neq in Hrc. now rewrite Hrc.
    + now destruct (rc =? 0)%Z.
  - intros H. unfold existsb in H. now rewrite H.
  - reflexivity.
Qed.

(** X10: A document that is not an object is not caught: [data.get] raises
    [AttributeError], and the exception leaves [probe_capabilities]. *)
Theorem document_that_is_no_object_raises (c : string) (cmd : list string)
    (repo_dir : string) (m m' : M) (data : json) :
  python_c (c :: cmd) repo_dir m = Done (CompletedProcess 0%Z (Some data)) m' ->
  (forall members, data <> JObj members) ->
  exists msg,
    probe_capabilities python_c (Some (c :: cmd)) repo_dir m
    = Fault (Exn AttributeError msg) m'.
Proof.
  intros Hrun Hno.
  unfold probe_capabilities, try_except_of, try_except, bind, with_timeout, lift.
  rewrite Hrun. cbn [returncode stdout Z.eqb json_loads].
  destruct data as [| | | |members]; try (eexists; reflexivity).
  now destruct (Hno members).
Qed.

End AnyChild.

(** A child that names a key of its own gets it appended. *)
Lemma catalog_keys_come_first_witness :
  exists p f,
    probe_capabilities child_with_extra_key sample_cmd "repo" tt = Done (p, f) tt /\
    In "bidi" (keys p) /\
    (exists extra, keys p = PATTERNS ++ extra) /\
    (exists extra, keys f = FEATURES ++ extra).
Proof.
  eexists _, _. split; [vm_compute; reflexivity|].
  split; [vm_compute; auto 10|].
  exact (@catalog_keys_come_first unit child_with_extra_key sample_cmd "repo"
           tt tt _ _ eq_refl).
Defined.

(** The same child: [unary] is as printed, [producer] as first built, and
    the key [bidi] is stored although the catalog has no such key. *)
Lemma printed_values_override_defaults_witness :
  exists p f,
    probe_capabilities child_with_extra_key sample_cmd "repo" tt = Done (p, f) tt /\
    dict_get p "unary" = Some (JBool true) /\
    dict_get p "producer" = Some (JBool false) /\
    dict_get p "bidi" = Some (JBool true) /\
    dict_get f "introspection" = Some (JBool false).
Proof.
  destruct (@printed_values_override_defaults unit child_with_extra_key
              "worker" [] "repo" tt tt
              (JObj [("patterns", JObj [("unary", JBool true); ("bidi", JBool true)])])
              [("unary", JBool true); ("bidi", JBool true)] []
              eq_refl eq_refl eq_refl)
    as (p & f & Hrun & Hp & Hf).
  - repeat constructor; simpl; intuition discriminate.
  - constructor.
  - exists p, f. split; [exact Hrun|].
    rewrite (Hp "unary"), (Hp "producer"), (Hp "bidi"), (Hf "introspection").
    repeat split.
Defined.

(** Exit status 1: the document printed is not read. *)
Lemma unusable_child_gives_all_false_witness :
  unusable (child_exiting_1 ["worker"] "repo" tt) /\
  probe_capabilities child_exiting_1 sample_cmd "repo" tt
  = Done (zero PATTERNS, zero FEATURES) tt.
Proof.
  assert (H : unusable (child_exiting_1 ["worker"] "repo" tt))
    by (left; discriminate).
  split; [exact H|].
  exact (@unusable_child_gives_all_false unit child_exiting_1 "worker" [] "repo" tt H).
Defined.

(** The document [null]. *)
Lemma document_that_is_no_object_raises_witness :
  exists msg,
    probe_capabilities child_printing_null sample_cmd "repo" tt
    = Fault (Exn AttributeError msg) tt.
Proof.
  apply (@document_that_is_no_object_raises unit child_printing_null
           "worker" [] "repo" tt tt JNull eq_refl).
  discriminate.
Defined.

(** Without git the run ends on the first language. *)
Lemma git_failure_aborts_witness :
  exists os',
    test_all_capabilities nothing_exists spawn_nothing conforming_sessions fixed_clock
      "repos" tt
    = Fault (Exn FileNotFoundError "No such file or directory") os'.
Proof.
  apply (@git_failure_aborts unit nothing_exists spawn_nothing conforming_sessions
           fixed_clock "repos" tt).
  intros args cwd os1. now exists os1.
Defined.

(** The C++ implementation has no worker command: it is not probed even
    where every command succeeds. *)
Lemma unbuilt_is_not_probed_witness :
  exists d' version,
    falsy (worker_cmd (config_of "cpp")) = true /\
    test_language nothing_exists spawn_all_fine conforming_sessions "repos"
      ("cpp", config_of "cpp") [] tt = Done d' tt /\
    d' = dict_set [] "cpp"
           (capability_record (config_of "cpp") (json_of_option version)
              (zero PATTERNS) (zero FEATURES)).
Proof.
  set (r := test_language nothing_exists spawn_all_fine conforming_sessions "repos"
              ("cpp", config_of "cpp") [] tt).
  assert (Hrun : r = Done (final_value_of r) tt) by (vm_compute; reflexivity).
  destruct (@unbuilt_is_not_probed unit nothing_exists spawn_all_fine
              conforming_sessions "repos" "cpp" (config_of "cpp") [] _ tt tt
              (or_introl eq_refl) Hrun) as (version & Hd).
  exists (final_value_of r), version. repeat split; assumption.
Defined.

(** Offline and without a checkout: the Python implementation is skipped. *)
Lemma failed_clone_is_skipped_witness :
  test_language nothing_exists spawn_offline conforming_sessions "repos"
    ("python", config_of "python") [] tt
  = Done (dict_set [] "python"
            (capability_record (config_of "python") JNull
               (zero PATTERNS) (zero FEATURES))) tt.
Proof.
  apply (@failed_clone_is_skipped unit nothing_exists spawn_offline
           conforming_sessions "repos" "python" (config_of "python") [] tt tt
           (CompletedProcess 128%Z "")); try reflexivity.
  discriminate.
Defined.

(** ** More on one probe run *)

(** X11: An exception raised when the connection is closed, or a close that
    hangs, discards the outcome of every probe: the dictionaries are returned
    all [False]. *)
Theorem close_failure_discards_results (cmd : option (list string))
    (repo_dir : string) (env : session) :
  (forall u, connect_exit env <> Returns u) ->
  probe cmd repo_dir env = Done (zero PATTERNS, zero FEATURES) tt.
Proof.
  intros Hexit. apply probe_of_nothing. right. right.
  unfold prints_results.
  destruct (script_main env initial) as [[] s|e s|s] eqn:Hmain; try reflexivity.
  apply script_main_done in Hmain as (_ & _ & Hx & _).
  now destruct (Hexit tt).
Qed.

(** The conforming worker passes the seven calls, and nothing is reported. *)
Lemma close_failure_discards_results_witness :
  List.length (probe_calls sample_cmd session_closing_badly) = 7 /\
  probe sample_cmd "repo" session_closing_badly
  = Done (zero PATTERNS, zero FEATURES) tt.
Proof.
  split; [vm_compute; reflexivity|].
  apply (close_failure_discards_results sample_cmd "repo" session_closing_badly).
  intros []. discriminate.
Defined.

Lemma dict_get_In (d : dict) (k : string) (v : json) :
  dict_get d k = Some v -> In (k, v) d.
Proof.
  induction d as [|[k' v'] d IH]; simpl; [discriminate|].
  destruct (String.eqb_spec k' k) as [->|Hne].
  - intros [= ->]. now left.
  - intros H. right. now apply IH.
Qed.

Lemma probe_counts (cmd : option (list string)) (repo_dir : string) (env : session)
    (p f : dict) :
  probe cmd repo_dir env = Done (p, f) tt ->
  (exists b1 b2 b7 b5,
      p = [("unary", JBool b1); ("unary_void", JBool b2); ("producer", JBool b7);
           ("producer_with_header", JBool false); ("exchange", JBool b5);
           ("exchange_with_header", JBool false)]) /\
  (exists b1 b3 b4 b5,
      f = [("introspection", JBool b1); ("client_logging", JBool false);
           ("error_propagation", JBool b3); ("complex_types", JBool b4);
           ("optional_types", JBool b5); ("dataclass_types", JBool false);
           ("annotated_types", JBool false); ("authentication", JBool false);
           ("external_storage", JBool false); ("opentelemetry", JBool false)]).
Proof.
  destruct (probe_cases cmd repo_dir env)
    as [(_ & _ & s & Hmain & ->)|(_ & ->)]; intros [= <- <-].
  - apply script_main_done in Hmain as (_ & _ & _ & Hs).
    destruct Hs. split; now do 4 eexists.
  - split; now do 4 eexists.
Qed.

(** X12: Every value a probe run returns is a boolean; the eight keys for which
    the script has no probe are [False] in every run; so at most four
    patterns and four features are ever counted as supported. *)
Theorem probe_values_are_booleans (cmd : option (list string)) (repo_dir : string)
    (env : session) :
  exists p f,
    probe cmd repo_dir env = Done (p, f) tt /\
    (forall k v, recorded (p, f) k = Some v -> exists b, v = JBool b) /\
    (forall k, In k unprobed_keys -> recorded (p, f) k = Some (JBool false)) /\
    exists np nf,
      count_true (JObj p) = Ok np /\ count_true (JObj f) = Ok nf /\
      np <= 4 /\ nf <= 4.
Proof.
  destruct (probe_total cmd repo_dir env) as (p & f & Hrun & _).
  exists p, f. split; [exact Hrun|].
  apply probe_counts in Hrun as [(p1 & p2 & p3 & p5 & ->) (f1 & f3 & f4 & f5 & ->)].
  split; [|split].
  - intros k v. unfold recorded. cbn [fst snd].
    destruct (dict_get _ k) as [v'|] eqn:Hp; intros H.
    + injection H as <-. apply dict_get_In in Hp. simpl in Hp.
      repeat (destruct Hp as [ [= _ <-] | Hp ]; [eauto|]). contradiction.
    + apply dict_get_In in H. simpl in H.
      repeat (destruct H as [ [= _ <-] | H ]; [eauto|]). contradiction.
  - intros k Hk. simpl in Hk.
    repeat (destruct Hk as [<-|Hk]; [reflexivity|]). contradiction.
  - do 2 eexists. split; [reflexivity|]. split; [reflexivity|].
    destruct p1, p2, p3, p5, f1, f3, f4, f5; simpl; lia.
Qed.

Ltac plan_step eqn_lemma n :=
  rewrite eqn_lemma; cbv zeta; forget_answer;
  match goal with
  | |- context [match ?j ?o with Some _ => _ | None => _ end] =>
      destruct (j o);
      [unfold set_pattern, set_feature; simpl | now exists n]
  end.

Lemma probes_follow_the_plan (env : session) :
  exists n,
    map (fun c => (call_probe c, call_request c))
        (calls (final_state (probes env initial)))
    = firstn n (call_plan (introspect_imported env)).
Proof.
  unfold probes, bind, introspect_imported.
  plan_step probe_unary_eq 1.
  plan_step probe_unary_void_eq 2.
  rewrite probe_introspection_eq.
  destruct (import_introspect env) as [[]|e|]; [| |now exists 2].
  - cbv zeta. forget_answer.
    destruct (judge_introspection _);
      [unfold set_feature; simpl | now exists 3].
    plan_step probe_error_propagation_eq 4.
    plan_step probe_complex_types_eq 5.
    plan_step probe_optional_types_eq 6.
    plan_step probe_producer_eq 7.
    now exists 7.
  - unfold set_feature; simpl.
    plan_step probe_error_propagation_eq 3.
    plan_step probe_complex_types_eq 4.
    plan_step probe_optional_types_eq 5.
    plan_step probe_producer_eq 6.
    now exists 6.
Qed.

Ltac verdicts_given :=
  unfold initial, logged; simpl;
  repeat (apply Forall_cons; [unfold judge; simpl; congruence|]);
  apply Forall_nil.

Ltac verdict_step eqn_lemma :=
  rewrite eqn_lemma; cbv zeta; forget_answer;
  match goal with
  | |- context [match ?j ?o with Some _ => _ | None => _ end] =>
      let H := fresh "H" in
      destruct (j o) eqn:H;
      [unfold set_pattern, set_feature; simpl | verdicts_given]
  end.

(** Every call but the last one got a verdict: a call that hangs, at once or
    while its stream is read, is the last call of the probes. *)
Lemma probes_stop_at_a_hang (env : session) :
  Forall (fun c => judge (call_probe c) (call_outcome c) <> None)
         (removelast (calls (final_state (probes env initial)))).
Proof.
  unfold probes, bind.
  verdict_step probe_unary_eq.
  verdict_step probe_unary_void_eq.
  rewrite probe_introspection_eq.
  destruct (import_introspect env) as [[]|e|]; [| |verdicts_given].
  - cbv zeta. forget_answer.
    destruct (judge_introspection _) eqn:Hi;
      [unfold set_feature; simpl | verdicts_given].
    verdict_step probe_error_propagation_eq.
    verdict_step probe_complex_types_eq.
    verdict_step probe_optional_types_eq.
    verdict_step probe_producer_eq.
    verdicts_given.
  - unfold set_feature; simpl.
    verdict_step probe_error_propagation_eq.
    verdict_step probe_complex_types_eq.
    verdict_step probe_optional_types_eq.
    verdict_step probe_producer_eq.
    verdicts_given.
Qed.

(** X13: The calls of the script are always the first calls of one fixed plan:
    their order and arguments do not depend on what the worker answers, and
    none is issued after a call that hung (every call but the last one got
    a verdict). *)
Theorem calls_follow_the_plan (env : session) :
  (exists n,
      n <= 7 /\
      map (fun c => (call_probe c, call_request c)) (script_calls env)
      = firstn n (call_plan (introspect_imported env))) /\
  Forall (fun c => judge (call_probe c) (call_outcome c) <> None)
         (removelast (script_calls env)).
Proof.
  split.
  - assert (Hle : forall n (l : list (string * request)) b,
               l = firstn n (call_plan b) ->
               exists n', n' <= 7 /\ l = firstn n' (call_plan b)).
    { intros n l b ->. exists (Nat.min n 7). split; [lia|].
      destruct (Nat.le_ge_cases n 7) as [H|H].
      - now rewrite Nat.min_l.
      - rewrite Nat.min_r by assumption.
        rewrite !firstn_all2; trivial; destruct b; simpl; lia. }
    destruct (probes_follow_the_plan env) as [n Hn].
    apply Hle with (n := match import_vgi_rpc env, connect_enter env with
                         | Returns _, Returns _ => n
                         | _, _ => 0
                         end).
    unfold script_calls, script_main, bind, with_connect, effect.
    destruct (import_vgi_rpc env) as [[]|e|]; try reflexivity.
    destruct (connect_enter env) as [[]|e|]; try reflexivity.
    rewrite <- Hn.
    destruct (probes env initial) as [[] s|e s|s]; simpl;
      destruct (connect_exit env); reflexivity.
  - pose proof (probes_stop_at_a_hang env) as Hp.
    unfold script_calls, script_main, bind, with_connect, effect.
    destruct (import_vgi_rpc env) as [[]|e|]; try apply Forall_nil.
    destruct (connect_enter env) as [[]|e|]; try apply Forall_nil.
    destruct (probes env initial) as [[] s|e s|s]; simpl in *;
      destruct (connect_exit env); exact Hp.
Qed.

Ltac call_found c :=
  exists c; split;
  [simpl; auto 10 | split; [reflexivity | unfold judge; simpl; congruence]].

Ltac own_call Hin Hk Hj :=
  simpl in Hin;
  repeat (destruct Hin as [ <- | Hin ];
          [unfold judge in Hj; simpl in Hk, Hj; try discriminate;
           unfold recorded; simpl; congruence|]);
  contradiction.

(** X14: A key for which the script issues a call is reported [True] exactly
    when the script ran to its end and the verdict of its probe on the
    outcome of that call was [True]. *)
Theorem reported_true_iff_own_verdict (cmd : option (list string))
    (repo_dir : string) (env : session) :
  exists pf,
    probe cmd repo_dir env = Done pf tt /\
    Forall
      (fun k =>
         recorded pf k = Some (JBool true) <->
         negb (falsy cmd) && cwd_exists env && prints_results env = true /\
         exists c, In c (probe_calls cmd env) /\ call_probe c = k /\
                   judge k (call_outcome c) = Some true)
      called_keys.
Proof.
  destruct (probe_cases cmd repo_dir env)
    as [(Hcmd & Hcwd & s & Hmain & ->)|(Hno & ->)]; eexists; (split; [reflexivity|]).
  - unfold prints_results, probe_calls, script_calls.
    rewrite Hcmd, Hcwd, Hmain. simpl negb. simpl orb. cbv iota. simpl final_state.
    apply script_main_done in Hmain as (_ & _ & _ & Hs).
    destruct Hs as [o1 o2 o4 o5 o6 o7 issued3 b1 b2 b3 b4 b5 b6 b7
                      H1 H2 H3 H4 H5 H6 H7].
    simpl calls.
    destruct H3 as [(_ & o3 & -> & H3)|(e & _ & -> & ->)];
      unfold called_keys;
      repeat (apply Forall_cons; [split|]); try apply Forall_nil;
      try (intros (_ & c & Hin & Hk & Hj); own_call Hin Hk Hj);
      intros H; unfold recorded in H; simpl in H;
      first
        [ discriminate
        | injection H as ->; split; [reflexivity|];
          first [ call_found (Call "unary" (Add 1%float 2%float) o1)
                | call_found (Call "unary_void" VoidMethod o2)
                | call_found (Call "error_propagation" RaiseError o4)
                | call_found (Call "complex_types" (EchoList [VInt 1; VInt 2; VInt 3]) o5)
                | call_found (Call "optional_types" (EchoOptional VNone) o6)
                | call_found (Call "producer" (CountStream 3) o7)
                | call_found (Call "introspection" Introspect o3) ] ].
  - assert (Hb : negb (falsy cmd) && cwd_exists env && prints_results env = false).
    { destruct Hno as [H|[H|H]]; rewrite H; simpl; trivial; now rewrite andb_false_r. }
    rewrite Hb. unfold called_keys.
    repeat (apply Forall_cons; [split|]); try apply Forall_nil;
      try discriminate; intros [[=] _].
Qed.

(** ** The summary of a snapshot *)

Lemma summary_counts_of_record (config : lang_config) (version : json) (p f : dict) :
  summary_counts (capability_record config version p f)
  = Ok (trues (known_transports config), trues p, trues f).
Proof. reflexivity. Qed.

Lemma probed_trues (p f : dict) : probed p f -> trues p <= 4 /\ trues f <= 4.
Proof.
  intros [(p1 & p2 & p3 & p5 & ->) (f1 & f3 & f4 & f5 & ->)].
  unfold trues. destruct p1, p2, p3, p5, f1, f3, f4, f5; simpl; lia.
Qed.

Section SummaryOfSnapshot.

Variable OS : Type.
Variable path_exists : OS -> string -> bool.
Variable spawn : list string -> option string -> prog OS (completed string).
Variable probe_session : list string -> string -> OS -> session * OS.
Variable utcnow_isoformat : OS -> string.

(** X15: On every snapshot that [test_all_capabilities] returns, the summary
    loop of [main] runs to its end without an exception and prints one line
    per configured language, in order; the transports figure is the number
    of known transports configured [True], and the patterns and features
    figures are at most 4 each. *)
Theorem summary_of_a_snapshot (repos_dir : string) (os os' : OS) (snap : json) :
  test_all_capabilities path_exists spawn probe_session utcnow_isoformat
    repos_dir os = Done snap os' ->
  exists counts,
    summary snap
    = (map (fun xc => summary_line (fst (fst xc)) (snd xc)) (combine LANGUAGES counts),
       None) /\
    Forall2 (fun x c =>
               fst (fst c) = trues (known_transports (snd x)) /\
               snd (fst c) <= 4 /\ snd c <= 4)
            LANGUAGES counts.
Proof.
  intros Hrun.
  set (Q := fun (x : string * lang_config) (v : json) =>
              exists version p f,
                v = capability_record (snd x) version p f /\ probed p f).
  assert (Hbody : forall x, In x LANGUAGES -> forall d os1 d' os1',
             test_language path_exists spawn probe_session repos_dir x d os1
             = Done d' os1' ->
             exists v, d' = dict_set d (fst x) v /\ Q x v).
  { intros [l c] _ d os1 d' os1' Hturn.
    eapply (@test_language_has OS path_exists spawn probe_session probed) in Hturn.
    - destruct Hturn as (version & p & f & -> & Hpf).
      eexists. split; [reflexivity|]. now exists version, p, f.
    - intros cmd env p f Hp. exact (probe_counts _ _ _ Hp). }
  destruct (@snapshot_records OS path_exists spawn probe_session utcnow_isoformat
              Q LANGUAGES repos_dir _ _ _ Hbody LANGUAGES_NoDup Hrun)
    as (langs & -> & Hkeys & Hall).
  destruct langs as [|[k1 v1] [|[k2 v2] [|[k3 v3] [|[k4 v4] [|]]]]];
    try discriminate.
  injection Hkeys as -> -> -> ->.
  destruct (Hall _ (or_introl eq_refl)) as (? & [= <-] & ver1 & p1 & f1 & -> & H1).
  destruct (Hall _ (or_intror (or_introl eq_refl)))
    as (? & [= <-] & ver2 & p2 & f2 & -> & H2).
  destruct (Hall _ (or_intror (or_intror (or_introl eq_refl))))
    as (? & [= <-] & ver3 & p3 & f3 & -> & H3).
  destruct (Hall _ (or_intror (or_intror (or_intror (or_introl eq_refl)))))
    as (? & [= <-] & ver4 & p4 & f4 & -> & H4).
  apply probed_trues in H1 as [], H2 as [], H3 as [], H4 as [].
  eexists [(_, _, _); (_, _, _); (_, _, _); (_, _, _)]. split.
  - unfold summary. cbn [subscript dict_get String.eqb Ascii.eqb Bool.eqb items].
    cbn [summary_loop]. rewrite !summary_counts_of_record. reflexivity.
  - repeat (apply Forall2_cons;
            [cbn [fst snd]; split; [reflexivity | split; assumption]|]).
    apply Forall2_nil.
Qed.

End SummaryOfSnapshot.

(** On the machine where everything succeeds. *)
Lemma summary_of_a_snapshot_witness :
  test_all_capabilities nothing_exists spawn_all_fine conforming_sessions fixed_clock
    "repos" tt = Done snapshot_all_fine tt /\
  summary snapshot_all_fine
  = (["  python: 6 transports, 4 patterns, 4 features";
      "  typescript: 1 transports, 4 patterns, 4 features";
      "  go: 1 transports, 4 patterns, 4 features";
      "  cpp: 0 transports, 0 patterns, 0 features"], None) /\
  exists counts,
    summary snapshot_all_fine
    = (map (fun xc => summary_line (fst (fst xc)) (snd xc)) (combine LANGUAGES counts),
       None) /\
    Forall2 (fun x c =>
               fst (fst c) = trues (known_transports (snd x)) /\
               snd (fst c) <= 4 /\ snd c <= 4)
            LANGUAGES counts.
Proof.
  assert (Hrun : test_all_capabilities nothing_exists spawn_all_fine
                   conforming_sessions fixed_clock "repos" tt
                 = Done snapshot_all_fine tt)
    by (vm_compute; reflexivity).
  split; [exact Hrun|]. split; [vm_compute; reflexivity|].
  exact (@summary_of_a_snapshot unit nothing_exists spawn_all_fine
           conforming_sessions fixed_clock "repos" tt tt snapshot_all_fine Hrun).
Defined.

(** ** A version command that prints nothing *)

Lemma lstrip_all_space (l : list ascii) :
  forallb isspace l = true -> lstrip l = [].
Proof.
  induction l as [|c l IH]; simpl; [reflexivity|].
  destruct (isspace c); [exact IH | discriminate].
Qed.

(** X2: A version command that exits with status 0 and prints only white space
    makes [get_version] return the empty string, not [None]. *)
Theorem blank_version_is_the_empty_string (OS : Type)
    (spawn : list string -> option string -> prog OS (completed string))
    (config : lang_config) (repo_dir : string) (os os' : OS)
    (c : string) (cmd : list string) (result : completed string) :
  version_cmd config = Some (c :: cmd) ->
  spawn (c :: cmd) (Some repo_dir) os = Done result os' ->
  returncode result = 0%Z ->
  forallb isspace (list_ascii_of_string (stdout result)) = true ->
  get_version spawn config repo_dir os = Done (Some "") os'.
Proof.
  intros Hcmd Hrun Hrc Hblank.
  unfold get_version, try_except_of, try_except, bind, with_timeout, ret.
  rewrite Hcmd, Hrun, Hrc. cbn [Z.eqb].
  unfold strip. rewrite (lstrip_all_space _ Hblank). reflexivity.
Qed.

(** The Python implementation, its version command printing an empty line. *)
Lemma blank_version_is_the_empty_string_witness :
  get_version spawn_blank (config_of "python") "repos/vgi-rpc-python" tt
  = Done (Some "") tt.
Proof.
  apply (@blank_version_is_the_empty_string unit spawn_blank (config_of "python")
           "repos/vgi-rpc-python" tt tt "uv"
           ["run"; "python"; "-c"; "import vgi_rpc; print(vgi_rpc.__version__)"]
           (CompletedProcess 0%Z (String (ascii_of_nat 10) EmptyString)));
    reflexivity.
Defined.
